(** * Table extraction from the text layer of the ICCAS PDF reports

    A shallow embedding of [src/table_extraction.py] and the statements
    of its specification that were checked against it.

    Layout: the Python values and builtins the module relies on
    ([Py]), the part of the [re] module it uses ([Re]), the part of
    pandas it uses ([Pandas]), then the module itself
    ([TableExtraction]) and, after all definitions, the lemmas. *)

From Stdlib Require Import ZArith NArith List String Ascii Lia.
From Stdlib Require Import SpecFloat.
From stdpp Require Import base option list strings gmap.

Set Default Proof Using "Type".

(** ** Python values and builtins *)

Module Py.

(** A Python [str] is a sequence of Unicode code points. *)
Definition char := N.
Definition str := list char.

(** The code points of an ASCII literal of the source. *)
Definition lit (s : string) : str := map N_of_ascii (list_ascii_of_string s).

(** [float] is IEEE-754 binary64. *)
Definition float64 := spec_float.
Definition nan : float64 := S754_nan.

(** [datetime.datetime], to the minute. *)
Record datetime := Datetime {
  year : Z; month : Z; day : Z; hour : Z; minute : Z
}.

(** The Python objects that flow through the module. *)
Inductive pyval :=
| PStr (s : str)
| PInt (z : Z)
| PFloat (f : float64)
| PDatetime (d : datetime).

(** The text of a [TableExtractionError].  The third message is an
    f-string: its interpolated values are kept as a structure instead of
    being formatted. *)
Inductive message :=
| datetime_failed    (* 'extraction of report datetime failed' *)
| table_not_found    (* 'could not find the table in the pdf' *)
| inconsistent_sum (col : string) (actual_sum expected : pyval).

Inductive exn :=
| ValueError
| AttributeError
| TypeError
| IndexError
| KeyError (key : string)
| TableExtractionError (msg : message).

(** A computation that returns or raises. *)
Inductive result (A : Type) :=
| Ok (a : A)
| Raise (e : exn).
Arguments Ok {A} a.
Arguments Raise {A} e.

#[export] Instance result_ret : MRet result := fun _ a => Ok a.
#[export] Instance result_bind : MBind result := fun _ _ f m =>
  match m with Ok a => f a | Raise e => Raise e end.
#[export] Instance result_fmap : FMap result := fun _ _ f m =>
  match m with Ok a => Ok (f a) | Raise e => Raise e end.

Definition is_ok {A} (r : result A) : bool :=
  match r with Ok _ => true | Raise _ => false end.

(** The Unicode tables of the interpreter.  The builtins below decide
    every code point below 127 themselves and consult these tables for
    the others only; the case tables serve all code points from 128. *)
Class Unicode := {
  unicode_space : char -> bool;          (* Py_UNICODE_ISSPACE *)
  unicode_decimal : char -> option N;    (* Py_UNICODE_TODECIMAL *)
  unicode_lower : char -> char;          (* Py_UNICODE_TOLOWER *)
  unicode_cased : char -> bool;          (* differs from its lower or upper case *)
  unicode_fixes : char -> list char      (* sre_compile._equivalences *)
}.

(** A table that knows no character beyond ASCII. *)
Definition ascii_only : Unicode := {|
  unicode_space := fun _ => false;
  unicode_decimal := fun _ => None;
  unicode_lower := fun c => c;
  unicode_cased := fun _ => false;
  unicode_fixes := fun _ => []
|}.

(** *** Truth value, as tested by [not] *)

Definition float_is_zero (f : float64) : bool :=
  match f with S754_zero _ => true | _ => false end.

Definition truthy (v : pyval) : bool :=
  match v with
  | PStr s => negb (bool_decide (s = []))
  | PInt z => negb (z =? 0)%Z
  | PFloat f => negb (float_is_zero f)
  | PDatetime _ => true
  end.

(** *** [str] methods *)

Fixpoint startswith (p s : str) : bool :=
  match p, s with
  | [], _ => true
  | _ :: _, [] => false
  | a :: p', c :: s' => (a =? c)%N && startswith p' s'
  end.

(** [s.replace(old, new)] scans from the left and skips over each
    occurrence it replaces; [skip] counts the characters of the current
    occurrence still to be passed. *)
Fixpoint replace_from (old new : str) (skip : nat) (s : str) : str :=
  match s with
  | [] => []
  | c :: s' =>
      match skip with
      | S k => replace_from old new k s'
      | O =>
          if startswith old s
          then new ++ replace_from old new (length old - 1) s'
          else c :: replace_from old new 0 s'
      end
  end.

Definition replace (old new s : str) : str :=
  match old with
  | [] => new ++ flat_map (fun c => c :: new) s
  | _ :: _ => replace_from old new 0 s
  end.

(** The method [replace] looked up on an arbitrary object: [int] and
    [float] have none, [datetime.replace] takes no string. *)
Definition attr_replace (v : pyval) (old new : str) : result str :=
  match v with
  | PStr s => Ok (replace old new s)
  | PInt _ | PFloat _ => Raise AttributeError
  | PDatetime _ => Raise TypeError
  end.

(** [s.find(sub)]: the lowest index of [sub] in [s], or -1. *)
Fixpoint find_from (sub s : str) (i : Z) : Z :=
  if startswith sub s then i
  else match s with
       | [] => (-1)%Z
       | _ :: s' => find_from sub s' (i + 1)%Z
       end.

Definition find (sub s : str) : Z := find_from sub s 0.

(** [s[k:]]; a negative [k] counts from the end. *)
Definition slice_from (k : Z) (s : str) : str :=
  if (k <? 0)%Z then drop (Z.to_nat (Z.of_nat (length s) + k)) s
  else drop (Z.to_nat k) s.

(** [s.split(sep)] with an explicit separator. *)
Fixpoint split_from (sep : str) (skip : nat) (s : str) : list str :=
  match s with
  | [] => [[]]
  | c :: s' =>
      match skip with
      | S k => split_from sep k s'
      | O =>
          if startswith sep s
          then [] :: split_from sep (length sep - 1) s'
          else match split_from sep 0 s' with
               | tok :: toks => (c :: tok) :: toks
               | [] => [[c]]
               end
      end
  end.

Definition split (sep s : str) : result (list str) :=
  match sep with
  | [] => Raise ValueError
  | _ :: _ => Ok (split_from sep 0 s)
  end.

(** *** Numeric literals *)

(** Py_ISSPACE and Py_ISDIGIT of the C locale. *)
Definition c_isspace (c : char) : bool :=
  ((9 <=? c) && (c <=? 13) || (c =? 32))%N.

Definition c_isdigit (c : char) : bool := ((48 <=? c) && (c <=? 57))%N.

Definition underscore : char := 95%N.

(** _PyUnicode_TransformDecimalAndSpaceToASCII: an ASCII string is
    passed on as it is; otherwise spaces become [' '], decimal digits
    their ASCII digit, and the first other character ends the string
    with a ['?']. *)
Fixpoint transform_chars {U : Unicode} (s : str) : str :=
  match s with
  | [] => []
  | c :: s' =>
      if (c <? 127)%N then c :: transform_chars s'
      else if unicode_space c then 32%N :: transform_chars s'
      else match unicode_decimal c with
           | Some d => (48 + d)%N :: transform_chars s'
           | None => [63%N]
           end
  end.

Definition transform_decimal_and_space {U : Unicode} (s : str) : str :=
  if forallb (fun c => (c <? 128)%N) s then s else transform_chars s.

Fixpoint lstrip (s : str) : str :=
  match s with
  | c :: s' => if c_isspace c then lstrip s' else s
  | [] => []
  end.

Definition rstrip (s : str) : str := rev (lstrip (rev s)).

Definition digit_value (c : char) : Z := Z.of_N (c - 48).

Definition digits_value (acc : Z) (ds : str) : Z :=
  fold_left (fun a c => (10 * a + digit_value c)%Z) ds acc.

(** The longest prefix of characters that satisfy [p], and the rest. *)
Fixpoint span (p : char -> bool) (s : str) : str * str :=
  match s with
  | c :: s' => if p c then let '(a, b) := span p s' in (c :: a, b) else ([], s)
  | [] => ([], [])
  end.

Fixpoint no_double_underscore (s : str) : bool :=
  match s with
  | a :: (b :: _) as s' =>
      negb ((a =? underscore) && (b =? underscore))%N && no_double_underscore s'
  | _ => true
  end.

(** A run of digits and underscores as [PyLong_FromString] accepts it in
    base 10: it starts and ends with a digit and has no two underscores
    in a row. *)
Definition valid_digit_run (run : str) : bool :=
  match run, last run with
  | first :: _, Some final =>
      c_isdigit first && c_isdigit final && no_double_underscore run
  | _, _ => false
  end.

Definition take_sign (s : str) : bool * str :=
  match s with
  | c :: s' =>
      if (c =? 45)%N then (true, s')
      else if (c =? 43)%N then (false, s')
      else (false, s)
  | [] => (false, s)
  end.

(** [PyLong_FromString(s, base=10)]: blanks, a sign, the digit run,
    blanks, and nothing else. *)
Definition long_from_string (s : str) : option Z :=
  let '(negative, s1) := take_sign (lstrip s) in
  let '(run, rest) := span (fun c => c_isdigit c || (c =? underscore)%N) s1 in
  if valid_digit_run run && bool_decide (lstrip rest = []) then
    let n := digits_value 0 (List.filter c_isdigit run) in
    Some (if negative then (- n)%Z else n)
  else None.

(** The builtin [int] applied to a string. *)
Definition int {U : Unicode} (s : str) : result Z :=
  match long_from_string (transform_decimal_and_space s) with
  | Some z => Ok z
  | None => Raise ValueError
  end.

(** _Py_string_to_number_with_underscores: an underscore is allowed
    between two digits only; [prev] is the character before [s]. *)
Fixpoint strip_underscores (prev : char) (s : str) : option str :=
  match s with
  | [] => if (prev =? underscore)%N then None else Some []
  | c :: s' =>
      if (c =? underscore)%N then
        if c_isdigit prev then strip_underscores c s' else None
      else if (prev =? underscore)%N && negb (c_isdigit c) then None
      else (c ::.) <$> strip_underscores c s'
  end.

Definition without_underscores (s : str) : option str :=
  if existsb (fun c => (c =? underscore)%N) s then strip_underscores 0%N s
  else Some s.

(** The binary64 nearest to [m * 10 ^ e10] (ties to even), for [m >= 0];
    this is the rounding of [_Py_dg_strtod]. *)
Definition float_of_decimal (negative : bool) (m e10 : Z) : float64 :=
  match m with
  | Z0 => S754_zero negative
  | Zpos p =>
      match e10 with
      | Z0 => binary_round 53 1024 negative p 0
      | Zpos k => binary_round 53 1024 negative (p * 10 ^ k) 0
      | Zneg k =>
          let '(q, e, l) :=
            SFdiv_core_binary 53 1024 (Zpos p) 0 (Zpos (10 ^ k)) 0 in
          binary_round_aux 53 1024 negative q e l
      end
  | Zneg _ => nan
  end.

Definition ascii_lower (c : char) : char :=
  if ((65 <=? c) && (c <=? 90))%N then (c + 32)%N else c.

(** _Py_parse_inf_or_nan: a sign, then "inf", "infinity" or "nan" in any
    case. *)
Definition parse_inf_or_nan (t : str) : option float64 :=
  let '(negative, r) := take_sign t in
  let w := map ascii_lower r in
  if bool_decide (w = lit "inf") || bool_decide (w = lit "infinity")
  then Some (S754_infinity negative)
  else if bool_decide (w = lit "nan") then Some nan
  else None.

(** The exponent part: an 'e' with no digits after it is not consumed. *)
Definition take_exponent (s : str) : Z * str :=
  match s with
  | c :: s' =>
      if ((c =? 101) || (c =? 69))%N then
        let '(negative, s1) := take_sign s' in
        let '(ds, rest) := span c_isdigit s1 in
        match ds with
        | [] => (0%Z, s)
        | _ :: _ =>
            let e := digits_value 0 ds in
            (if negative then (- e)%Z else e, rest)
        end
      else (0%Z, s)
  | [] => (0%Z, s)
  end.

(** _Py_dg_strtod: sign, digits, an optional point and digits, an
    optional exponent; at least one digit; everything is consumed. *)
Definition parse_decimal (t : str) : option float64 :=
  let '(negative, r) := take_sign t in
  let '(ip, r1) := span c_isdigit r in
  let '(fp, r2) :=
    match r1 with
    | c :: r' => if (c =? 46)%N then span c_isdigit r' else ([], r1)
    | [] => ([], r1)
    end in
  match ip ++ fp with
  | [] => None
  | ds =>
      let '(e, r3) := take_exponent r2 in
      match r3 with
      | [] => Some (float_of_decimal negative (digits_value 0 ds)
                      (e - Z.of_nat (length fp)))
      | _ :: _ => None
      end
  end.

(** float_from_string_inner: blanks are stripped on both sides. *)
Definition float_from_string_inner (s : str) : option float64 :=
  let t := rstrip (lstrip s) in
  match parse_decimal t with
  | Some f => Some f
  | None => parse_inf_or_nan t
  end.

(** The builtin [float] applied to a string. *)
Definition float {U : Unicode} (s : str) : result float64 :=
  match without_underscores (transform_decimal_and_space s)
          ≫= float_from_string_inner with
  | Some f => Ok f
  | None => Raise ValueError
  end.

(** *** Comparison *)

(** An [int] and a [float] are compared by their exact values. *)
Definition int_float_eq (a : Z) (f : float64) : bool :=
  match f with
  | S754_zero _ => (a =? 0)%Z
  | S754_finite negative m e =>
      let v := if negative then Zneg m else Zpos m in
      match e with
      | Zneg k => (a * 2 ^ Zpos k =? v)%Z
      | _ => (a =? v * 2 ^ e)%Z
      end
  | _ => false
  end.

(** [a == b] and [a != b]. *)
Definition py_eq (a b : pyval) : bool :=
  match a, b with
  | PStr x, PStr y => bool_decide (x = y)
  | PInt x, PInt y => (x =? y)%Z
  | PInt x, PFloat f | PFloat f, PInt x => int_float_eq x f
  | PFloat f, PFloat g => SFeqb f g
  | PDatetime x, PDatetime y =>
      (year x =? year y)%Z && (month x =? month y)%Z && (day x =? day y)%Z
      && (hour x =? hour y)%Z && (minute x =? minute y)%Z
  | _, _ => false
  end.

Definition py_ne (a b : pyval) : bool := negb (py_eq a b).

(** *** [datetime(year, month, day, hour, minute)] *)

Definition is_leap (y : Z) : bool :=
  ((y mod 4 =? 0) && (negb (y mod 100 =? 0) || (y mod 400 =? 0)))%Z.

Definition days_in_month (y m : Z) : Z :=
  if (m =? 2)%Z then (if is_leap y then 29 else 28)%Z
  else if ((m =? 4) || (m =? 6) || (m =? 9) || (m =? 11))%Z then 30%Z
  else 31%Z.

Definition datetime_new (y mo d h mi : Z) : result datetime :=
  if ((1 <=? y) && (y <=? 9999) && (1 <=? mo) && (mo <=? 12)
      && (1 <=? d) && (d <=? days_in_month y mo)
      && (0 <=? h) && (h <=? 23) && (0 <=? mi) && (mi <=? 59))%Z
  then Ok (Datetime y mo d h mi)
  else Raise ValueError.

(** *** Helpers for loops *)

(** A list comprehension whose body may raise: left to right, the first
    exception ends it. *)
Fixpoint traverse {A B} (f : A -> result B) (l : list A) : result (list B) :=
  match l with
  | [] => Ok []
  | x :: l' => y ← f x; ys ← traverse f l'; mret (y :: ys)
  end.

(** [l[a:b]] for indices that are not negative. *)
Definition slice {A} (a b : nat) (l : list A) : list A :=
  take (b - a) (drop a l).

End Py.

(** ** The part of [re] the module uses *)

Module Re.
Import Py.

(** A compiled pattern is read as a backtracking matcher: from the named
    groups captured so far and the text ahead it yields, in the order in
    which the engine tries them, the ways to match a prefix of the text,
    each with the groups captured, the prefix matched and the text left
    over.  None of the patterns of the module looks behind or uses an
    anchor. *)
Definition attempt : Type := gmap string str * str * str.
Definition pattern := gmap string str -> str -> list attempt.

(** *** Characters under [re.IGNORECASE] *)

Definition ascii_letter (c : char) : bool :=
  ((65 <=? c) && (c <=? 90) || (97 <=? c) && (c <=? 122))%N.

Definition lower {U : Unicode} (c : char) : char :=
  if (c <? 128)%N then ascii_lower c else unicode_lower c.

Definition iscased {U : Unicode} (c : char) : bool :=
  if (c <? 128)%N then ascii_letter c else unicode_cased c.

(** The characters [sre_compile] adds to a lower-case character: among
    the ASCII letters, dotless i for 'i' and long s for 's'. *)
Definition fixes {U : Unicode} (lo : char) : list char :=
  if (lo =? 105)%N then [305%N]
  else if (lo =? 115)%N then [383%N]
  else if (lo <? 128)%N then []
  else unicode_fixes lo.

(** Does the text character [c] match the pattern character [p]? *)
Definition matches_lowered {U : Unicode} (p c : char) : bool :=
  let lo := lower p in
  (lower c =? lo)%N || bool_decide (lower c ∈ fixes lo).

Definition char_test {U : Unicode} (ignorecase : bool) (p c : char) : bool :=
  if ignorecase && iscased p then matches_lowered p c else (c =? p)%N.

(** The members of a set [[...]]: characters and ranges. *)
Inductive item :=
| Chr (c : char)
| Rng (first final : char).

Definition chars_of (it : item) : list char :=
  match it with
  | Chr c => [c]
  | Rng a b => map N.of_nat (seq (N.to_nat a) (N.to_nat b + 1 - N.to_nat a))
  end.

(** A set that has a cased member is tested on the lowered character. *)
Definition set_test {U : Unicode} (ignorecase : bool) (items : list item)
    (c : char) : bool :=
  let members := flat_map chars_of items in
  if ignorecase && existsb iscased members
  then existsb (fun p => matches_lowered p c) members
  else bool_decide (c ∈ members).

(** [.] without DOTALL: anything but a newline. *)
Definition dot_test (c : char) : bool := negb (c =? 10)%N.

(** *** Pattern constructors *)

Definition empty : pattern := fun g s => [(g, [], s)].

Definition one (test : char -> bool) : pattern := fun g s =>
  match s with
  | c :: s' => if test c then [(g, [c], s')] else []
  | [] => []
  end.

Definition cat (p q : pattern) : pattern := fun g s =>
  '(g1, w1, s1) ← p g s; '(g2, w2, s2) ← q g1 s1; [(g2, w1 ++ w2, s2)].

Definition alt (p q : pattern) : pattern := fun g s => p g s ++ q g s.

(** [p?], greedy. *)
Definition opt (p : pattern) : pattern := alt p empty.

(** [x*] for a one-character [x], greedy: the longest run first. *)
Fixpoint star (test : char -> bool) (g : gmap string str) (s : str)
    : list attempt :=
  match s with
  | c :: s' =>
      if test c
      then ((fun a : attempt => (a.1.1, c :: a.1.2, a.2)) <$> star test g s')
             ++ [(g, [], s)]
      else [(g, [], s)]
  | [] => [(g, [], [])]
  end.

Definition plus (test : char -> bool) : pattern := cat (one test) (star test).

(** A run of literal characters. *)
Definition text {U : Unicode} (ignorecase : bool) (w : str) : pattern :=
  foldr (fun p rest => cat (one (char_test ignorecase p)) rest) empty w.

Definition set {U : Unicode} (ignorecase : bool) (items : list item) : pattern :=
  one (set_test ignorecase items).

(** [(?P<name>p)]: the group captures the text [p] matched. *)
Definition named (name : string) (p : pattern) : pattern := fun g s =>
  '(g1, w, s1) ← p g s; [(<[name := w]> g1, w, s1)].

(** *** [search] and [sub] *)

(** A match object: where it starts and ends, and [groupdict()]. *)
Record match_object := Match {
  start : nat;
  stop : nat;
  groupdict : gmap string str
}.

Definition match_at (p : pattern) (s : str) (i : nat) : option match_object :=
  match p ∅ s with
  | (g, w, _) :: _ => Some (Match i (i + length w) g)
  | [] => None
  end.

(** The leftmost position at which the pattern matches. *)
Fixpoint search_from (p : pattern) (s : str) (i : nat) : option match_object :=
  match match_at p s i with
  | Some m => Some m
  | None =>
      match s with
      | [] => None
      | _ :: s' => search_from p s' (S i)
      end
  end.

Definition search (p : pattern) (s : str) : option match_object :=
  search_from p s 0.

(** [p.sub(repl, s)] for a replacement without escapes: each match,
    found from the left, is replaced; [skip] counts the characters of
    the current match still to be passed.  (An empty match puts the
    replacement in front of the next character; the patterns of the
    module match no empty string.) *)
Fixpoint sub_from (p : pattern) (repl : str) (skip : nat) (s : str) : str :=
  match s with
  | [] =>
      match skip, match_at p [] 0 with
      | O, Some _ => repl
      | _, _ => []
      end
  | c :: s' =>
      match skip with
      | S k => sub_from p repl k s'
      | O =>
          match match_at p s 0 with
          | Some m =>
              match stop m with
              | O => repl ++ c :: sub_from p repl 0 s'
              | S k => repl ++ sub_from p repl k s'
              end
          | None => c :: sub_from p repl 0 s'
          end
      end
  end.

Definition sub (p : pattern) (repl s : str) : str := sub_from p repl 0 s.

End Re.

(** ** The part of pandas the module uses *)

Module Pandas.
Import Py.

(** A frame: the column names and the rows, each with its index label
    and one cell per column. *)
Record DataFrame := Frame {
  columns : list string;
  rows : list (Z * list pyval)
}.

(** The missing marker pandas fills cells with. *)
Definition missing : pyval := PFloat nan.

Definition is_missing (v : pyval) : bool :=
  match v with PFloat S754_nan => true | _ => false end.

(** [pd.DataFrame(data, columns=cols)] for a list of rows: the index is
    0, 1, ...; a row of another width than [cols] is refused. *)
Definition DataFrame_new (data : list (list pyval)) (cols : list string)
    : result DataFrame :=
  if forallb (fun r => length r =? length cols) data
  then Ok (Frame cols (imap (fun i r => (Z.of_nat i, r)) data))
  else Raise ValueError.

Definition column_position (col : string) (cols : list string) : option nat :=
  fst <$> list_find (fun c => c = col) cols.

(** [df[col]]: the cells of a column, top to bottom. *)
Definition getitem (df : DataFrame) (col : string) : result (list pyval) :=
  match column_position col (columns df) with
  | Some j => Ok (map (fun r => default missing (r.2 !! j)) (rows df))
  | None => Raise (KeyError col)
  end.

Definition int_cell (v : pyval) : option Z :=
  match v with PInt z => Some z | _ => None end.

Definition float_cell (v : pyval) : option float64 :=
  match v with
  | PInt z => Some (binary_normalize 53 1024 z 0 false)
  | PFloat f => Some f
  | _ => None
  end.

(** [Series.sum()], with the default [skipna=True]: missing cells are
    left out.  A column of integers, some possibly missing, sums to the
    exact integer: pandas adds it in int64, or in float64 when a cell is
    missing, and both are exact for counts below 2^53.  Other numeric
    columns are added in binary64; a column with a string or a date has
    no sum here. *)
Definition Series_sum (cells : list pyval) : result pyval :=
  let present := List.filter (fun v => negb (is_missing v)) cells in
  match mapM int_cell present with
  | Some ints => Ok (PInt (foldr Z.add 0%Z ints))
  | None =>
      match mapM float_cell present with
      | Some floats =>
          Ok (PFloat (fold_left (SFadd 53 1024) floats (S754_zero false)))
      | None => Raise TypeError
      end
  end.

(** [df.at[label, col] = v].  Setting a cell that does not exist
    enlarges the frame: a new column or a new row, filled with the
    missing marker, is added at the end first. *)
Definition with_column (col : string) (df : DataFrame) : DataFrame :=
  if bool_decide (col ∈ columns df) then df
  else Frame (columns df ++ [col])
             (map (fun r => (r.1, r.2 ++ [missing])) (rows df)).

Definition with_row (label : Z) (df : DataFrame) : DataFrame :=
  if bool_decide (label ∈ map fst (rows df)) then df
  else Frame (columns df)
             (rows df ++ [(label, replicate (length (columns df)) missing)]).

Definition at_set (df : DataFrame) (label : Z) (col : string) (v : pyval)
    : DataFrame :=
  let df := with_row label (with_column col df) in
  match column_position col (columns df) with
  | Some j =>
      Frame (columns df)
            (map (fun r => if (r.1 =? label)%Z then (r.1, <[j := v]> r.2) else r)
                 (rows df))
  | None => df
  end.

End Pandas.

(** ** The part of PyPDF3 the module uses *)

Module PyPDF.
Import Py.

(** A [PdfFileReader] is used through [getNumPages()] and
    [getPage(i).extractText()] only: it is the list of the texts of its
    pages. *)
Definition PdfFileReader := list str.

(** A computation on a document, with the pages it asked the text of, in
    order. *)
Record traced (A : Type) := Traced {
  outcome : result A;
  inspected : list nat
}.
Arguments Traced {A} outcome inspected.
Arguments outcome {A} t.
Arguments inspected {A} t.

#[export] Instance traced_ret : MRet traced := fun _ a => Traced (Ok a) [].
#[export] Instance traced_bind : MBind traced := fun _ _ f m =>
  match outcome m with
  | Ok a => Traced (outcome (f a)) (inspected m ++ inspected (f a))
  | Raise e => Traced (Raise e) (inspected m)
  end.

#[export] Instance traced_fmap : FMap traced := fun _ _ f m =>
  Traced (f <$> outcome m) (inspected m).

Definition lift {A} (r : result A) : traced A := Traced r [].

Definition getNumPages (pdf : PdfFileReader) : nat := length pdf.

(** [pdf.getPage(i).extractText()] *)
Definition extractText (pdf : PdfFileReader) (i : nat) : traced str :=
  Traced (match pdf !! i with Some t => Ok t | None => Raise IndexError end) [i].

End PyPDF.

(** ** [table_extraction.py] *)

Module TableExtraction.
Import Py Re Pandas PyPDF.

(** What the module imports from [common.py], which is not among the
    sources: the compiled [get_italian_date_pattern(sep='[ ]?')] and the
    decoding of the date groups it captures. *)
Class Common := {
  italian_date_pattern : pattern;
  date_of_tokens : gmap string str -> result (Z * Z * Z)
}.

(** Modelled from the spec: [cartesian_join] of [common.py], which is
    not among the sources.  (section 3: one field per (sex-prefix x
    field) combination; the order, prefix first, is that of
    COLUMN_CONVERTERS.) *)
Definition cartesian_join (prefixes fields : list string) : list string :=
  prefix ← prefixes; field ← fields; [prefix +:+ field].

Section table_extraction.
Context {U : Unicode} {C : Common}.

Definition to_int (s : pyval) : result pyval :=
  if negb (truthy s) then Ok (PFloat nan)
  else
    s1 ← attr_replace s (lit ".") (lit "");
    PInt <$> int (replace (lit " ") (lit "") s1).

Definition to_float (s : pyval) : result pyval :=
  if negb (truthy s) then Ok (PFloat nan)
  else
    s1 ← attr_replace s (lit ",") (lit ".");
    PFloat <$> float s1.

Definition COLUMN_PREFIXES : list string := ["male_"; "female_"; ""].
Definition COLUMN_FIELDS : list string :=
  ["cases"; "cases_percentage"; "deaths"; "deaths_percentage"; "fatality_rate"].
Definition COLUMNS : list string :=
  "age_group" :: cartesian_join COLUMN_PREFIXES COLUMN_FIELDS.

(** The converters are applied to tokens, which are strings; [str]
    returns a string as it is. *)
Definition converter := str -> result pyval.
Definition str_ : converter := fun s => Ok (PStr s).
Definition on_token (f : pyval -> result pyval) : converter :=
  fun s => f (PStr s).

Definition COLUMN_CONVERTERS : list converter :=
  [str_] ++ mjoin (replicate 3 (on_token <$>
                      [to_int; to_float; to_int; to_float; to_float])).

Definition CONVERTER_BY_COLUMN : gmap string converter :=
  list_to_map (zip COLUMNS COLUMN_CONVERTERS).

Definition ch (a : ascii) : char := N_of_ascii a.

(** 'tabella [0-9- ]+ distribuzione dei casi .+ per fascia di et. ' *)
Definition TABLE_CAPTION_PATTERN : pattern :=
  cat (text true (lit "tabella "))
 (cat (plus (set_test true [Rng (ch "0") (ch "9"); Chr (ch "-"); Chr (ch " ")]))
 (cat (text true (lit " distribuzione dei casi "))
 (cat (plus dot_test)
 (cat (text true (lit " per fascia di et"))
 (cat (one dot_test)
      (text true (lit " "))))))).

(** '[o0-2]?[o0-9]|3[o0-1]' *)
Definition hour_pattern : pattern :=
  alt (cat (opt (set true [Chr (ch "o"); Rng (ch "0") (ch "2")]))
           (set true [Chr (ch "o"); Rng (ch "0") (ch "9")]))
      (cat (text true (lit "3"))
           (set true [Chr (ch "o"); Rng (ch "0") (ch "1")])).

(** '[o0-5][o0-9]' *)
Definition minute_pattern : pattern :=
  cat (set true [Chr (ch "o"); Rng (ch "0") (ch "5")])
      (set true [Chr (ch "o"); Rng (ch "0") (ch "9")]).

(** '[- ]* ore {hour}:{minute}', where [reagex] puts each keyword
    pattern in a group of its name. *)
Definition time_pattern : pattern :=
  cat (star (set_test true [Chr (ch "-"); Chr (ch " ")]))
 (cat (text true (lit " ore "))
 (cat (named "hour" hour_pattern)
 (cat (text true (lit ":"))
      (named "minute" minute_pattern)))).

Definition DATETIME_PATTERN : pattern := cat italian_date_pattern time_pattern.

(** '(età non nota|non not[ao])' *)
Definition unknown_age_matcher : pattern :=
  alt (text true (lit "et" ++ [224%N] ++ lit " non nota"))
      (cat (text true (lit "non not"))
           (set true [Chr (ch "a"); Chr (ch "o")])).

Definition convert_values (values : list str) (converters : list converter)
    : result (list pyval) :=
  if negb (length values =? length converters) then Raise ValueError
  else traverse (fun vc => vc.2 vc.1) (zip values converters).

Definition normalize_table (table : DataFrame) : DataFrame :=
  let table := at_set table 9 "age_group" (PStr (lit ">=90")) in
  let table := at_set table 10 "age_group" (PStr (lit "unknown")) in
  table.

Definition extract_text (pdf : PdfFileReader) (page : nat) : traced str :=
  replace [10%N] (lit "") <$> extractText pdf page.

(** Modelled from the spec: [process_datetime_tokens] of [common.py],
    which is not among the sources.  (section 4.4: "translating any
    'o'-for-zero glyphs to '0' before numeric parsing"; the groups of
    the date, that is all but the hour and the minute, are decoded by
    [date_of_tokens].) *)
Definition process_datetime_tokens (tokens : gmap string str)
    : result (Z * Z * Z * Z * Z) :=
  let number (name : string) : result Z :=
    match tokens !! name with
    | Some t => int (replace (lit "o") (lit "0") t)
    | None => Raise (KeyError name)
    end in
  '(year, month, day) ← date_of_tokens (delete "hour" (delete "minute" tokens));
  hour ← number "hour";
  minute ← number "minute";
  mret (year, month, day, hour, minute).

Definition extract_datetime (text : str) : result datetime :=
  match search DATETIME_PATTERN text with
  | None => Raise (TableExtractionError datetime_failed)
  | Some m =>
      '(year, month, day, hour, minute) ← process_datetime_tokens (groupdict m);
      datetime_new year month day hour minute
  end.

(** The loop of [find_table_page] over the page numbers still to try;
    its [else] branch is reached when they are exhausted. *)
Fixpoint find_table_page_loop (pdf : PdfFileReader) (pages : list nat)
    : traced (str * nat) :=
  match pages with
  | i :: pages' =>
      text ← extract_text pdf i;
      match search TABLE_CAPTION_PATTERN text with
      | Some _ => mret (text, i)
      | None => find_table_page_loop pdf pages'
      end
  | [] => lift (Raise (TableExtractionError table_not_found))
  end.

Definition find_table_page (pdf : PdfFileReader) : traced (str * nat) :=
  let num_pages := getNumPages pdf in
  find_table_page_loop pdf (seq 1 (num_pages - 1)).

(** Lines 71-75 of [extract]: from the text of the table page to the
    tokens. *)
Definition tokenize (page : str) : result (list str) :=
  let page := sub unknown_age_matcher (lit "unknown") page in
  let data_start := find (lit "0-9") page in
  let raw_data := slice_from data_start page in
  let raw_data := replace (lit ", ") (lit ",") raw_data in
  split (lit " ") raw_data.

(** Lines 76-84 of [extract]: the rows, from the tokens. *)
Definition rows_of_tokens (date : pyval) (tokens : list str)
    : result (list (list pyval)) :=
  let num_rows := 11 in
  let num_columns := length COLUMNS in
  traverse (fun i =>
      let data_start := i * num_columns in
      let end_ := data_start + num_columns in
      values ← convert_values (slice data_start end_ tokens) COLUMN_CONVERTERS;
      mret (date :: values))
    (seq 0 num_rows).

(** Lines 71-86 of [extract]: from the text of the table page and the
    date of the report to the table. *)
Definition build_rows (date : pyval) (page : str) : result DataFrame :=
  tokens ← tokenize page;
  rows ← rows_of_tokens date tokens;
  df ← DataFrame_new rows ("date" :: COLUMNS);
  mret (normalize_table df).

Definition extract (pdf : PdfFileReader) : traced DataFrame :=
  text ← extract_text pdf 0;
  date ← lift (extract_datetime text);
  '(page, _) ← find_table_page pdf;
  lift (build_rows (PDatetime date) page).

(** The loop of [sanity_check_with_totals] over the columns still to
    check. *)
Fixpoint sanity_check_loop (table : DataFrame) (totals : gmap string pyval)
    (columns : list string) : result unit :=
  match columns with
  | col :: columns' =>
      actual_sum ← getitem table col ≫= Series_sum;
      expected ← match totals !! col with
                 | Some t => Ok t
                 | None => Raise (KeyError col)
                 end;
      if py_ne actual_sum expected
      then Raise (TableExtractionError (inconsistent_sum col actual_sum expected))
      else sanity_check_loop table totals columns'
  | [] => Ok ()
  end.

(** The outcome, and the table as the call leaves it: the function only
    reads it. *)
Definition sanity_check_with_totals (table : DataFrame)
    (totals : gmap string pyval) : result unit * DataFrame :=
  let columns := cartesian_join COLUMN_PREFIXES ["cases"; "deaths"] in
  (sanity_check_loop table totals columns, table).

End table_extraction.
End TableExtraction.

(** ** Vocabulary of the statements *)

Import Py Re Pandas PyPDF TableExtraction.

(** The thousands separator and the space, which [to_int] deletes. *)
Definition is_separator (c : char) : bool := ((c =? 46) || (c =? 32))%N.

Definition separators_removed (s : str) : str :=
  List.filter (fun c => negb (is_separator c)) s.

Definition all_digits (ds : str) : Prop := Forall (fun c => c_isdigit c = true) ds.

(** The number a string of digits writes in base 10: each digit counts
    for its power of ten. *)
Fixpoint base10 (ds : str) : Z :=
  match ds with
  | [] => 0
  | c :: ds' => digit_value c * 10 ^ Z.of_nat (length ds') + base10 ds'
  end%Z.

(** The characters an integer literal is made of. *)
Definition numeric_char (c : char) : bool :=
  c_isdigit c || (c =? 45)%N || (c =? 43)%N || (c =? underscore)%N || c_isspace c.

(** [sub in s] *)
Fixpoint contains (sub s : str) : bool :=
  startswith sub s ||
  match s with
  | [] => false
  | _ :: s' => contains sub s'
  end.

(** The text [extract_text] returns for a page of the document. *)
Definition page_text (pdf : PdfFileReader) (i : nat) : option str :=
  replace [10%N] (lit "") <$> pdf !! i.

Definition has_caption {U : Unicode} (text : str) : bool :=
  bool_decide (is_Some (search TABLE_CAPTION_PATTERN text)).

(** The converter of the column in which the token number [i] falls. *)
Definition converter_of {U : Unicode} (i : nat) : converter :=
  default str_ (COLUMN_CONVERTERS !! (i mod 16)).

(** The columns [sanity_check_with_totals] sums. *)
Definition validated_columns : list string :=
  cartesian_join COLUMN_PREFIXES ["cases"; "deaths"].

Definition column_sum (table : DataFrame) (col : string) : result pyval :=
  getitem table col ≫= Series_sum.

(** A cell of a column of counts: an integer, or missing. *)
Definition count_cell (v : pyval) : bool :=
  match v with
  | PInt _ => true
  | PFloat S754_nan => true
  | _ => false
  end.

(** The sum of the integers of a column, its other cells left out. *)
Definition present_total (cells : list pyval) : Z :=
  foldr Z.add 0%Z (omap int_cell cells).

(** A table of the report: the columns of [extract], eleven rows, and
    counts in the columns that are summed. *)
Definition report_table (table : DataFrame) : Prop :=
  columns table = "date" :: COLUMNS /\
  length (rows table) = 11 /\
  forall col cells, col ∈ validated_columns -> getitem table col = Ok cells ->
    Forall (fun v => count_cell v = true) cells.

(** The rows of a table after [normalize_table], from its rows [data]
    before: the cell of column 1, "age_group", is rewritten in the rows
    9 and 10. *)
Definition relabelled (data : list (list pyval)) : list (Z * list pyval) :=
  imap (fun i row =>
          (Z.of_nat i,
           if i =? 9 then <[1 := PStr (lit ">=90")]> row
           else if i =? 10 then <[1 := PStr (lit "unknown")]> row
           else row)) data.

(** The row number [i] of the table: the body of the loop of [extract]. *)
Definition row_of_tokens {U : Unicode} (date : pyval) (tokens : list str)
    (i : nat) : result (list pyval) :=
  values ← convert_values (take 16 (drop (i * 16) tokens)) COLUMN_CONVERTERS;
  mret (date :: values).

(** Where the summed columns lie in a row. *)
Definition count_positions : list nat := [2; 4; 7; 9; 12; 14].

(** ** Sample documents *)

(** A date pattern and a decoder in the style section 4.2 describes
    ("day, month name, year"), to instantiate [Common] in the examples. *)
Definition month_names : list string :=
  ["gennaio"; "febbraio"; "marzo"; "aprile"; "maggio"; "giugno"; "luglio";
   "agosto"; "settembre"; "ottobre"; "novembre"; "dicembre"].

Definition sample_date_pattern {U : Unicode} : pattern :=
  let sep := opt (set true [Chr (ch " ")]) in
  cat (named "day" (plus c_isdigit))
 (cat sep
 (cat (named "month"
         (foldr (fun name rest => alt (text true (lit name)) rest)
                (fun _ _ => []) month_names))
 (cat sep
      (named "year" (plus c_isdigit))))).

Definition sample_date_of_tokens {U : Unicode} (tokens : gmap string str)
    : result (Z * Z * Z) :=
  match tokens !! "day", tokens !! "month", tokens !! "year" with
  | Some d, Some m, Some y =>
      day ← int d;
      year ← int y;
      match list_find (fun name => lit name = m) month_names with
      | Some (i, _) => Ok (year, Z.of_nat (S i), day)
      | None => Raise ValueError
      end
  | _, _, _ => Raise (KeyError "day")
  end.

Definition sample_common {U : Unicode} : Common := {|
  italian_date_pattern := sample_date_pattern;
  date_of_tokens := sample_date_of_tokens
|}.

(** The rows of a table page: 40 male and 60 female cases in each of the
    first ten age groups, none of unknown age. *)
Definition full_row : str :=
  lit " 40 40,0 4 40,0 10,0 60 60,0 6 60,0 10,0 100 100,0 10 100,0 10,0".
Definition zero_row : str :=
  lit " 0 0,0 0 0,0 0,0 0 0,0 0 0,0 0,0 0 0,0 0 0,0 0,0".
(** The same row with its five counts left blank. *)
Definition blank_row : str :=
  lit "  0,0  0,0 0,0  0,0  0,0 0,0  0,0  0,0 0,0".

Definition bracket_labels : list string :=
  ["0-9"; "10-19"; "20-29"; "30-39"; "40-49"; "50-59"; "60-69"; "70-79"; "80-89"].

Definition caption : str :=
  lit "Tabella 2 - Distribuzione dei casi (n=1000) e dei decessi per fascia di et"
  ++ [224%N] ++ lit " e sesso Fascia Maschi Femmine Totale ".

(** "≥90" *)
Definition ge_90 : str := 8805%N :: lit "90".

Definition ten_rows : str :=
  mjoin ((fun label => lit label ++ full_row ++ lit " ") <$> bracket_labels)
  ++ ge_90 ++ full_row.

Definition sample_page : str :=
  caption ++ ten_rows ++ lit " Non noto" ++ zero_row ++ lit " Totale 1000 100".

Definition blank_page : str :=
  caption ++ ten_rows ++ lit " Non noto" ++ blank_row ++ lit " Totale 1000 100".

Definition short_page : str := caption ++ ten_rows.

Definition cover_page : str :=
  lit "Epidemia COVID-19 Aggiornamento nazionale 12 marzo 2021 - ore o9:3o".

Definition sample_pdf : PdfFileReader :=
  [cover_page; lit "Indice"; sample_page].

Definition sample_date : datetime := Datetime 2021 3 12 9 30.

(** A date as the sample date pattern reads it, and the groups it
    captures. *)
Definition sample_day : str := lit "12 marzo 2021".
Definition sample_day_groups : gmap string str :=
  <["year" := lit "2021"]> (<["month" := lit "marzo"]> (<["day" := lit "12"]> ∅)).

Definition table_of (r : result DataFrame) : DataFrame :=
  match r with Ok table => table | Raise _ => Frame [] [] end.

Definition sample_table : DataFrame :=
  table_of (build_rows (U := ascii_only) (PDatetime sample_date) sample_page).

Definition blank_table : DataFrame :=
  table_of (build_rows (U := ascii_only) (PDatetime sample_date) blank_page).

Definition sample_totals : gmap string pyval :=
  list_to_map [("male_cases", PInt 400); ("male_deaths", PInt 40);
               ("female_cases", PInt 600); ("female_deaths", PInt 60);
               ("cases", PInt 1000); ("deaths", PInt 100)].

Definition wrong_totals : gmap string pyval := <["cases" := PInt 999]> sample_totals.

(** The rows of the sample page before the table is made and normalized. *)
Definition sample_rows : list (list pyval) :=
  match tokenize (U := ascii_only) sample_page
          ≫= rows_of_tokens (U := ascii_only) (PDatetime sample_date) with
  | Ok data => data
  | Raise _ => []
  end.

Definition raw_table : DataFrame :=
  Frame ("date" :: COLUMNS) (imap (fun i r => (Z.of_nat i, r)) sample_rows).

(** The tokens of the sample page. *)
Definition sample_tokens : list str :=
  match tokenize (U := ascii_only) sample_page with
  | Ok tokens => tokens
  | Raise _ => []
  end.

(** Totals that disagree in two columns, and totals that lack one. *)
Definition two_wrong_totals : gmap string pyval :=
  <["male_deaths" := PInt 0]> wrong_totals.
Definition incomplete_totals : gmap string pyval :=
  delete "male_deaths" sample_totals.

(** ** Properties *)

Section properties.
Context {U : Unicode} {C : Common}.

Lemma startswith_single a c s : startswith [a] (c :: s) = (a =? c)%N.
Proof. simpl. by rewrite andb_true_r. Qed.

Lemma replace_char_empty a s :
  replace [a] [] s = List.filter (fun c => negb (c =? a)%N) s.
Proof.
  unfold replace. induction s as [|c s IH]; [done|].
  cbn [replace_from List.filter]. rewrite startswith_single, N.eqb_sym.
  destruct (c =? a)%N; simpl; by rewrite IH.
Qed.

Lemma cleanup_separators s :
  replace (lit " ") (lit "") (replace (lit ".") (lit "") s) = separators_removed s.
Proof.
  change (lit " ") with [32%N]. change (lit ".") with [46%N]. change (lit "") with (@nil char).
  rewrite !replace_char_empty. unfold separators_removed, is_separator.
  induction s as [|c s IH]; [done|]. simpl.
  destruct (c =? 46)%N; simpl; [done|].
  destruct (c =? 32)%N; simpl; by rewrite IH.
Qed.

Lemma transform_ascii s :
  forallb (fun c => (c <? 128)%N) s = true -> transform_decimal_and_space s = s.
Proof. unfold transform_decimal_and_space. by intros ->. Qed.

Lemma digit_ascii c : c_isdigit c = true -> (c <? 128)%N = true.
Proof. unfold c_isdigit. intros H. apply andb_true_iff in H as [_ H]. apply N.leb_le in H. apply N.ltb_lt. lia. Qed.

Lemma digits_ascii ds : forallb c_isdigit ds = true -> forallb (fun c => (c <? 128)%N) ds = true.
Proof.
  induction ds as [|c ds IH]; [done|]. simpl. intros [Hc Hd]%andb_true_iff.
  by rewrite (digit_ascii c Hc), IH.
Qed.

Lemma digit_not_space c : c_isdigit c = true -> c_isspace c = false.
Proof.
  unfold c_isdigit, c_isspace. intros [H1 H2]%andb_true_iff.
  apply N.leb_le in H1. apply N.leb_le in H2.
  apply orb_false_iff. split.
  - apply andb_false_iff. right. apply N.leb_gt. lia.
  - apply N.eqb_neq. lia.
Qed.

Lemma digit_not_underscore c : c_isdigit c = true -> (c =? underscore)%N = false.
Proof.
  unfold c_isdigit, underscore. intros [H1 H2]%andb_true_iff.
  apply N.leb_le in H2. apply N.eqb_neq. lia.
Qed.

Lemma take_sign_digit c s : c_isdigit c = true -> take_sign (c :: s) = (false, c :: s).
Proof.
  unfold c_isdigit. intros [H1 H2]%andb_true_iff.
  apply N.leb_le in H1. apply N.leb_le in H2.
  unfold take_sign.
  destruct (N.eqb_spec c 45); [lia|]. destruct (N.eqb_spec c 43); [lia|]. done.
Qed.

Lemma all_digits_ascii ds : all_digits ds -> forallb (fun c => (c <? 128)%N) ds = true.
Proof.
  intros H. apply forallb_forall. intros c Hc.
  apply digit_ascii. eapply Forall_forall in H; [done|]. by apply list_elem_of_In.
Qed.

Lemma span_all p ds rest :
  Forall (fun c => p c = true) ds ->
  span p (ds ++ rest) = (ds ++ (span p rest).1, (span p rest).2).
Proof.
  induction 1 as [|c ds Hc _ IH]; simpl.
  - by destruct (span p rest).
  - rewrite Hc, IH. done.
Qed.

Lemma span_stop p c rest : p c = false -> span p (c :: rest) = ([], c :: rest).
Proof. simpl. by intros ->. Qed.

Lemma no_double_underscore_digits ds : all_digits ds -> no_double_underscore ds = true.
Proof.
  induction 1 as [|c ds Hc Hds IH]; [done|].
  destruct ds as [|d ds]; [done|].
  cbn [no_double_underscore]. rewrite (digit_not_underscore c Hc). simpl. exact IH.
Qed.

Lemma filter_digits ds : all_digits ds -> List.filter c_isdigit ds = ds.
Proof.
  induction 1 as [|c ds Hc _ IH]; [done|]. simpl. by rewrite Hc, IH.
Qed.

Lemma long_from_string_digits ds :
  ds <> [] -> all_digits ds -> long_from_string ds = Some (digits_value 0 ds).
Proof.
  intros Hne Hds. unfold long_from_string.
  destruct ds as [|c ds]; [done|].
  pose proof (Forall_inv Hds) as Hc. cbn beta in Hc.
  cbn [lstrip]. rewrite (digit_not_space c Hc), (take_sign_digit c ds Hc).
  rewrite <- (app_nil_r (c :: ds)) at 1.
  rewrite span_all; cycle 1.
  { eapply Forall_impl; [exact Hds|]. intros x Hx. cbn beta in *. by rewrite Hx. }
  cbn [span fst snd]. rewrite app_nil_r.
  assert (valid_digit_run (c :: ds) = true) as ->.
  { unfold valid_digit_run.
    destruct (last (c :: ds)) as [final|] eqn:Hl.
    - rewrite Hc, (no_double_underscore_digits _ Hds).
      apply last_Some in Hl as [l' Hl].
      assert (final ∈ c :: ds) as Hin by (rewrite Hl; set_solver).
      eapply Forall_forall in Hds; [|exact Hin]. cbn beta in Hds. by rewrite Hds.
    - by apply last_None in Hl. }
  cbn [lstrip]. rewrite bool_decide_eq_true_2 by done. cbn [andb].
  by rewrite filter_digits.
Qed.


Lemma digits_value_base10 ds : forall acc,
  digits_value acc ds = (acc * 10 ^ Z.of_nat (length ds) + base10 ds)%Z.
Proof.
  unfold digits_value. induction ds as [|c ds IH]; intros acc; cbn [fold_left base10 length].
  - rewrite Z.pow_0_r. lia.
  - rewrite IH, Nat2Z.inj_succ, Z.pow_succ_r by lia. lia.
Qed.

Lemma digits_value_0 ds : digits_value 0 ds = base10 ds.
Proof. rewrite digits_value_base10. lia. Qed.

Lemma to_int_nonempty s :
  s <> [] -> to_int (PStr s) = PInt <$> int (separators_removed s).
Proof.
  intros Hne. unfold to_int. cbn [truthy].
  rewrite bool_decide_eq_false_2 by done. cbn [negb attr_replace].
  cbn [mbind result_bind]. by rewrite cleanup_separators.
Qed.

Lemma separators_removed_digits s :
  Forall (fun c => c_isdigit c = true \/ is_separator c = true) s ->
  all_digits (separators_removed s).
Proof.
  induction 1 as [|c s Hc _ IH]; [constructor|].
  unfold separators_removed. cbn [List.filter].
  destruct (is_separator c) eqn:Hs; cbn [negb]; [exact IH|].
  constructor; [|exact IH]. by destruct Hc.
Qed.

Lemma digit_not_separator c : c_isdigit c = true -> is_separator c = false.
Proof.
  unfold c_isdigit, is_separator. intros [H1 H2]%andb_true_iff.
  apply N.leb_le in H1. apply N.leb_le in H2.
  apply orb_false_iff. split; apply N.eqb_neq; lia.
Qed.

Lemma separators_removed_nonempty s :
  Exists (fun c => c_isdigit c = true) s -> separators_removed s <> [].
Proof.
  induction 1 as [c s Hc|c s _ IH]; unfold separators_removed; cbn [List.filter].
  - by rewrite (digit_not_separator c Hc).
  - destruct (negb (is_separator c)); [done|exact IH].
Qed.

(** Every character of an accepted literal is a digit, a sign, an
    underscore or a blank. *)
Lemma lstrip_split s :
  exists blanks, s = blanks ++ lstrip s /\ Forall (fun c => c_isspace c = true) blanks.
Proof.
  induction s as [|c s [blanks [Hs Hb]]]; [by exists []|].
  cbn [lstrip]. destruct (c_isspace c) eqn:Hc.
  - exists (c :: blanks). split; [by rewrite <- app_comm_cons, <- Hs|by constructor].
  - by exists [].
Qed.

Lemma lstrip_nil s : lstrip s = [] -> Forall (fun c => c_isspace c = true) s.
Proof.
  intros H. destruct (lstrip_split s) as [blanks [Hs Hb]].
  rewrite H, app_nil_r in Hs. by subst.
Qed.

Lemma span_split p s :
  s = (span p s).1 ++ (span p s).2 /\ Forall (fun c => p c = true) (span p s).1.
Proof.
  induction s as [|c s [Hs Hp]]; [done|].
  cbn [span]. destruct (p c) eqn:Hc; [|done].
  destruct (span p s) as [a b]. cbn [fst snd] in *. split; [by rewrite Hs at 1|by constructor].
Qed.

Lemma take_sign_split s :
  (take_sign s).2 = s \/
  exists c, s = c :: (take_sign s).2 /\ ((c =? 45)%N = true \/ (c =? 43)%N = true).
Proof.
  destruct s as [|c s]; [by left|]. unfold take_sign.
  destruct (c =? 45)%N eqn:H1; [right; exists c; auto|].
  destruct (c =? 43)%N eqn:H2; [right; exists c; auto|]. by left.
Qed.

Lemma long_from_string_numeric t z :
  long_from_string t = Some z -> Forall (fun c => numeric_char c = true) t.
Proof.
  unfold long_from_string.
  destruct (lstrip_split t) as [blanks [Ht Hb]].
  destruct (take_sign (lstrip t)) as [negative s1] eqn:Hsign.
  pose proof (take_sign_split (lstrip t)) as Hs. rewrite Hsign in Hs. cbn [snd] in Hs.
  pose proof (span_split (fun c => c_isdigit c || (c =? underscore)%N) s1) as [Hrun Hp].
  destruct (span _ s1) as [run rest]. cbn [fst snd] in *.
  destruct (valid_digit_run run); [|done]. cbn [andb].
  destruct (bool_decide_reflect (lstrip rest = [])) as [Hrest|]; [|done].
  intros _. apply lstrip_nil in Hrest.
  assert (Forall (fun c => numeric_char c = true) s1) as Hs1.
  { rewrite Hrun. apply Forall_app. split.
    - eapply Forall_impl; [exact Hp|]. intros c Hc. cbn beta in Hc. unfold numeric_char.
      apply orb_true_iff in Hc as [->| ->]; by rewrite ?orb_true_r.
    - eapply Forall_impl; [exact Hrest|]. intros c Hc. cbn beta in Hc. unfold numeric_char.
      by rewrite Hc, ?orb_true_r. }
  rewrite Ht. apply Forall_app. split.
  - eapply Forall_impl; [exact Hb|]. intros c Hc. cbn beta in Hc. unfold numeric_char.
    by rewrite Hc, ?orb_true_r.
  - destruct Hs as [<-|[c [-> Hc]]]; [done|]. constructor; [|done].
    unfold numeric_char. destruct Hc as [->| ->]; by rewrite ?orb_true_r.
Qed.

Lemma transform_chars_keeps c s :
  (c <? 127)%N = true -> numeric_char c = false -> c ∈ s ->
  Exists (fun c => numeric_char c = false) (transform_chars s).
Proof.
  intros Hc Hn. induction s as [|d s IH]; [by intros ?%elem_of_nil|].
  intros Hin. cbn [transform_chars].
  destruct (d <? 127)%N eqn:Hd.
  - apply elem_of_cons in Hin as [<-|Hin]; [by left|right; auto].
  - assert (c <> d) as Hne by (intros ->; congruence).
    apply elem_of_cons in Hin as [?|Hin]; [done|].
    destruct (unicode_space d); [right; auto|].
    destruct (unicode_decimal d); [right; auto|]. by left.
Qed.

Lemma int_non_numeric s :
  Exists (fun c => (c <? 127)%N = true /\ numeric_char c = false) s ->
  int s = Raise ValueError.
Proof.
  intros Hex. unfold int.
  destruct (long_from_string (transform_decimal_and_space s)) as [z|] eqn:Hz; [|done].
  exfalso. apply long_from_string_numeric in Hz.
  apply Exists_exists in Hex as [c [Hin [Hc Hn]]].
  unfold transform_decimal_and_space in Hz.
  destruct (forallb _ s).
  - eapply Forall_forall in Hz; [|exact Hin]. cbn beta in Hz. congruence.
  - pose proof (transform_chars_keeps c s Hc Hn Hin) as Hex.
    apply Exists_exists in Hex as [d [Hd Hnd]].
    eapply Forall_forall in Hz; [|exact Hd]. cbn beta in Hz. congruence.
Qed.



Lemma replace_char_char a b s :
  replace [a] [b] s = map (fun c => if (c =? a)%N then b else c) s.
Proof.
  unfold replace. induction s as [|c s IH]; [done|].
  cbn [replace_from map]. rewrite startswith_single, N.eqb_sym.
  destruct (c =? a)%N; simpl; by rewrite IH.
Qed.

Lemma map_id_on {A} (f : A -> A) l : Forall (fun x => f x = x) l -> map f l = l.
Proof. induction 1 as [|x l Hx _ IH]; [done|]. simpl. by rewrite Hx, IH. Qed.

Lemma digit_not_char c k :
  c_isdigit c = true -> (k < 48 \/ 57 < k)%N -> (c =? k)%N = false.
Proof.
  unfold c_isdigit. intros [H1 H2]%andb_true_iff Hk.
  apply N.leb_le in H1. apply N.leb_le in H2. apply N.eqb_neq. lia.
Qed.

Lemma comma_to_point ip fp :
  all_digits ip -> all_digits fp ->
  replace (lit ",") (lit ".") (ip ++ lit "," ++ fp) = ip ++ lit "." ++ fp.
Proof.
  intros Hi Hf. change (lit ",") with [44%N]. change (lit ".") with [46%N].
  rewrite replace_char_char, !map_app. cbn [map N.eqb Pos.eqb].
  rewrite !map_id_on; [done| |].
  - eapply Forall_impl; [exact Hf|]. intros c Hc. cbn beta in *.
    rewrite (digit_not_char c 44%N Hc); [done|lia].
  - eapply Forall_impl; [exact Hi|]. intros c Hc. cbn beta in *.
    rewrite (digit_not_char c 44%N Hc); [done|lia].
Qed.

Lemma lstrip_head c s : c_isspace c = false -> lstrip (c :: s) = c :: s.
Proof. cbn [lstrip]. by intros ->. Qed.

Lemma rstrip_last s c : c_isspace c = false -> rstrip (s ++ [c]) = s ++ [c].
Proof.
  intros Hc. unfold rstrip. rewrite rev_app_distr. cbn [rev app].
  rewrite (lstrip_head _ _ Hc). change (c :: rev s) with ([c] ++ rev s).
  by rewrite rev_app_distr, rev_involutive.
Qed.

Lemma rstrip_digits_or_point s :
  s <> [] -> Forall (fun c => c_isdigit c = true \/ c = 46%N) s -> rstrip s = s.
Proof.
  intros Hne Hs. destruct (exists_last Hne) as [s' [c ->]].
  apply rstrip_last. apply Forall_app in Hs as [_ Hc].
  apply Forall_inv in Hc as [Hc| ->]; [by apply digit_not_space|done].
Qed.

Lemma without_underscores_none s :
  Forall (fun c => (c =? underscore)%N = false) s -> without_underscores s = Some s.
Proof.
  intros Hs. unfold without_underscores.
  assert (existsb (fun c => (c =? underscore)%N) s = false) as ->; [|done].
  induction Hs as [|c s Hc _ IH]; [done|]. simpl. by rewrite Hc, IH.
Qed.

Lemma parse_decimal_point ip fp :
  ip <> [] -> all_digits ip -> all_digits fp ->
  parse_decimal (ip ++ lit "." ++ fp)
  = Some (float_of_decimal false (digits_value 0 (ip ++ fp)) (- Z.of_nat (length fp))).
Proof.
  intros Hne Hi Hf. unfold parse_decimal.
  destruct ip as [|c ip]; [done|]. pose proof (Forall_inv Hi) as Hc. cbn beta in Hc.
  rewrite <- app_comm_cons, (take_sign_digit c _ Hc).
  rewrite app_comm_cons, (span_all c_isdigit (c :: ip) _ Hi).
  change (lit "." ++ fp) with (46%N :: fp).
  change (span c_isdigit (46%N :: fp)) with (@nil char, 46%N :: fp).
  cbn [fst snd]. rewrite app_nil_r.
  cbn [N.eqb Pos.eqb].
  rewrite <- (app_nil_r fp) at 1. rewrite (span_all c_isdigit fp [] Hf).
  cbn [span fst snd]. rewrite app_nil_r.
  rewrite <- app_comm_cons. cbn [take_exponent]. by rewrite Z.sub_0_l.
Qed.

Lemma float_digits_point ip fp :
  ip <> [] -> all_digits ip -> all_digits fp ->
  float (ip ++ lit "." ++ fp)
  = Ok (float_of_decimal false (digits_value 0 (ip ++ fp)) (- Z.of_nat (length fp))).
Proof.
  intros Hne Hi Hf. unfold float.
  assert (Forall (fun c => c_isdigit c = true \/ c = 46%N) (ip ++ lit "." ++ fp)) as Hall.
  { apply Forall_app. split; [eapply Forall_impl; [exact Hi|]; by left|].
    constructor; [by right|]. eapply Forall_impl; [exact Hf|]; by left. }
  rewrite transform_ascii; cycle 1.
  { apply forallb_forall. intros c Hc%list_elem_of_In.
    eapply Forall_forall in Hall; [|exact Hc]. destruct Hall as [H| ->]; [|done].
    by apply digit_ascii. }
  rewrite without_underscores_none; cycle 1.
  { eapply Forall_impl; [exact Hall|]. intros c [H| ->]; [|done].
    by apply digit_not_underscore. }
  cbn [mbind option_bind]. unfold float_from_string_inner.
  destruct ip as [|c ip]; [done|]. pose proof (Forall_inv Hi) as Hc. cbn beta in Hc.
  rewrite <- app_comm_cons, (lstrip_head _ _ (digit_not_space c Hc)).
  rewrite app_comm_cons, rstrip_digits_or_point; [|done|done].
  by rewrite parse_decimal_point.
Qed.

Lemma to_float_nonempty s :
  s <> [] -> to_float (PStr s) = PFloat <$> float (replace (lit ",") (lit ".") s).
Proof.
  intros Hne. unfold to_float. cbn [truthy].
  by rewrite bool_decide_eq_false_2.
Qed.

(** Claim C8.  On a non-empty token [to_float] returns what [float]
    returns on the token with every ',' replaced by '.'; for a token
    "<digits>,<digits>" that is the binary64 nearest to the decimal
    number "<digits>.<digits>". *)
Theorem to_float_decimal_comma (s : str) :
  s <> [] ->
  to_float (PStr s) = PFloat <$> float (replace (lit ",") (lit ".") s) /\
  (forall ip fp, s = ip ++ lit "," ++ fp -> ip <> [] -> all_digits ip -> all_digits fp ->
     float (ip ++ lit "." ++ fp)
     = Ok (float_of_decimal false (base10 (ip ++ fp)) (- Z.of_nat (length fp))) /\
     to_float (PStr s) = PFloat <$> float (ip ++ lit "." ++ fp)).
Proof.
  intros Hne. rewrite (to_float_nonempty s Hne). split; [done|].
  intros ip fp -> Hip Hi Hf. rewrite (comma_to_point ip fp Hi Hf).
  by rewrite (float_digits_point ip fp Hip Hi Hf), digits_value_0.
Qed.

(** Claim C6, as amended.  The empty token converts to the missing
    marker under [to_int] and under [to_float]; the converters take
    text only: applied to the missing marker itself, which is a float,
    counts as true and has no method [replace], both raise
    AttributeError. *)
Theorem empty_token_is_missing :
  to_int (PStr (lit "")) = Ok (PFloat nan) /\
  to_float (PStr (lit "")) = Ok (PFloat nan) /\
  to_int (PFloat nan) = Raise AttributeError /\
  to_float (PFloat nan) = Raise AttributeError.
Proof. done. Qed.


(** *** The repair of the wrapped decimals *)

Lemma replace_unchanged old new s :
  old <> [] -> contains old s = false -> replace old new s = s.
Proof.
  intros Hold. unfold replace. destruct old as [|o old]; [done|]. clear Hold.
  induction s as [|c s IH]; [done|].
  cbn [contains replace_from]. intros [-> Hs]%orb_false_iff. by rewrite IH.
Qed.

Lemma startswith_comma_space c x :
  startswith (lit ", ") (c :: x)
  = (44 =? c)%N && match x with d :: _ => (32 =? d)%N | [] => false end.
Proof. cbn. destruct x; [done|]. by rewrite andb_true_r. Qed.

Lemma replace_from_skip_char old new c s :
  startswith old (c :: s) = false ->
  replace_from old new 0 (c :: s) = c :: replace_from old new 0 s.
Proof. cbn [replace_from]. by intros ->. Qed.

Lemma repair_first_from a b :
  contains [44%N; 32%N] (a ++ [44%N]) = false ->
  replace_from [44%N; 32%N] [44%N] 0 (a ++ 44%N :: 32%N :: b)
  = a ++ 44%N :: replace_from [44%N; 32%N] [44%N] 0 b.
Proof.
  induction a as [|c a IH]; [done|].
  cbn [app contains]. intros [Hc Ha]%orb_false_iff.
  rewrite replace_from_skip_char; [by rewrite (IH Ha)|].
  change [44%N; 32%N] with (lit ", ") in *. rewrite startswith_comma_space in *.
  destruct a; [by rewrite andb_false_r|exact Hc].
Qed.

Lemma repair_first a b :
  contains (lit ", ") (a ++ lit ",") = false ->
  replace (lit ", ") (lit ",") (a ++ lit ", " ++ b)
  = a ++ lit "," ++ replace (lit ", ") (lit ",") b.
Proof. exact (repair_first_from a b). Qed.

(** Claim C4, as amended.  The repair replaces every comma followed by
    a space, whatever stands around them: up to and including the first
    ", " the text is kept with the space dropped and the repair goes on
    behind it, and a text without ", " is unchanged; so the wrapped
    decimal "3, 5" becomes the one token "3,5". *)
Theorem repair_collapses_comma_space :
  (forall a b, contains (lit ", ") (a ++ lit ",") = false ->
     replace (lit ", ") (lit ",") (a ++ lit ", " ++ b)
     = a ++ lit "," ++ replace (lit ", ") (lit ",") b) /\
  (forall a, contains (lit ", ") a = false ->
     replace (lit ", ") (lit ",") a = a) /\
  tokenize (lit "0-9 3, 5") = Ok [lit "0-9"; lit "3,5"].
Proof.
  split; [exact repair_first|]. split; [|by vm_compute].
  intros a Ha. by apply replace_unchanged.
Qed.


(** *** The page locator *)

Lemma extract_text_page pdf i :
  extract_text pdf i
  = Traced (match page_text pdf i with Some t => Ok t | None => Raise IndexError end) [i].
Proof.
  unfold extract_text, extractText, page_text.
  by destruct (pdf !! i).
Qed.

Lemma search_caption text :
  (match search TABLE_CAPTION_PATTERN text with Some _ => true | None => false end)
  = has_caption text.
Proof.
  unfold has_caption. destruct (search TABLE_CAPTION_PATTERN text) as [m|].
  - by rewrite bool_decide_eq_true_2.
  - rewrite bool_decide_eq_false_2; [done|]. by intros [? ?].
Qed.

(** The loop over the pages [a], ..., [a + n - 1], all of which exist. *)
Lemma find_table_page_loop_spec pdf n : forall a,
  n = 0 \/ a + n <= length pdf ->
  (exists j text,
     a <= j < a + n /\ page_text pdf j = Some text /\ has_caption text = true /\
     (forall j' t, a <= j' < j -> page_text pdf j' = Some t -> has_caption t = false) /\
     find_table_page_loop pdf (seq a n) = Traced (Ok (text, j)) (seq a (S (j - a)))) \/
  ((forall j' t, a <= j' < a + n -> page_text pdf j' = Some t -> has_caption t = false) /\
   find_table_page_loop pdf (seq a n)
   = Traced (Raise (TableExtractionError table_not_found)) (seq a n)).
Proof.
  induction n as [|n IH]; intros a [Hn|Hlen]; try done.
  - right. split; [intros; lia|done].
  - right. split; [intros; lia|done].
  - cbn [seq find_table_page_loop]. rewrite extract_text_page.
    destruct (page_text pdf a) as [text|] eqn:Htext; cycle 1.
    { exfalso. unfold page_text in Htext.
      apply fmap_None, lookup_ge_None in Htext. lia. }
    pose proof (search_caption text) as Hcap.
    destruct (search TABLE_CAPTION_PATTERN text) as [m|] eqn:Hs.
    + left. exists a, text. split_and!; [lia|lia|done|done|intros; lia|].
      rewrite Nat.sub_diag. unfold mbind, traced_bind. cbn. by rewrite Hs.
    + destruct (IH (S a)) as [[j [t [Hj [Ht [Hc [Hfirst Hr]]]]]]|[Hnone Hr]];
        [right; lia| |].
      * left. exists j, t. split_and!; [lia|lia|done|done| |].
        { intros j' t' Hj' Ht'. destruct (decide (j' = a)) as [->|].
          - rewrite Htext in Ht'. by injection Ht' as <-.
          - apply (Hfirst j' t'); [lia|done]. }
        unfold mbind, traced_bind. cbn. rewrite Hs, Hr. cbn.
        replace (j - a) with (S (j - S a)) by lia. done.
      * right. split.
        { intros j' t' Hj' Ht'. destruct (decide (j' = a)) as [->|].
          - rewrite Htext in Ht'. by injection Ht' as <-.
          - apply (Hnone j' t'); [lia|done]. }
        unfold mbind, traced_bind. cbn. by rewrite Hs, Hr.
Qed.

Lemma find_table_page_loop_ext pdf pdf' pages :
  (forall i, i ∈ pages -> pdf !! i = pdf' !! i) ->
  find_table_page_loop pdf pages = find_table_page_loop pdf' pages.
Proof.
  induction pages as [|i pages IH]; [done|]. intros Hext.
  cbn [find_table_page_loop]. unfold extract_text, extractText.
  rewrite (Hext i) by set_solver. rewrite IH; [done|].
  intros j Hj. apply Hext. set_solver.
Qed.

(** Claim C3.  [find_table_page] never asks for page 0; it returns the
    text and the number of the first page from 1 on whose text matches
    the caption pattern, having asked for the pages 1 to that one in
    order, and raises the "table not found" error exactly when no page
    from 1 on matches, having asked for all of them; so it fails when
    page 0 alone matches, and page 0 has no influence on its result. *)
Theorem find_table_page_skips_first_page (pdf : PdfFileReader) :
  let r := find_table_page pdf in
  (0 ∉ inspected r) /\
  (forall text i, outcome r = Ok (text, i) <->
     1 <= i /\ page_text pdf i = Some text /\ has_caption text = true /\
     forall j t, 1 <= j < i -> page_text pdf j = Some t -> has_caption t = false) /\
  (forall text i, outcome r = Ok (text, i) -> inspected r = seq 1 i) /\
  (outcome r = Raise (TableExtractionError table_not_found) <->
     forall j t, 1 <= j -> page_text pdf j = Some t -> has_caption t = false) /\
  (outcome r = Raise (TableExtractionError table_not_found) ->
     inspected r = seq 1 (length pdf - 1)) /\
  (forall first rest, pdf = first :: rest ->
     (forall t, t ∈ rest -> has_caption (replace [10%N] (lit "") t) = false) ->
     outcome r = Raise (TableExtractionError table_not_found)) /\
  (forall first first' rest, pdf = first :: rest ->
     find_table_page (first' :: rest) = r).
Proof.
  cbn zeta. unfold find_table_page, getNumPages.
  assert (forall j t, page_text pdf j = Some t -> j < length pdf) as Hbound.
  { intros j t Hj. unfold page_text in Hj. apply fmap_Some in Hj as [raw [Hp _]].
    by apply lookup_lt_Some in Hp. }
  set (r := find_table_page_loop pdf (seq 1 (length pdf - 1))).
  assert (
    (forall text i, outcome r = Ok (text, i) <->
       1 <= i /\ page_text pdf i = Some text /\ has_caption text = true /\
       forall j t, 1 <= j < i -> page_text pdf j = Some t -> has_caption t = false) /\
    (outcome r = Raise (TableExtractionError table_not_found) <->
       forall j t, 1 <= j -> page_text pdf j = Some t -> has_caption t = false) /\
    (forall text i, outcome r = Ok (text, i) -> inspected r = seq 1 i) /\
    (outcome r = Raise (TableExtractionError table_not_found) ->
       inspected r = seq 1 (length pdf - 1)))
    as [Hok [Hfail [Hseen Hall]]].
  { subst r. destruct (find_table_page_loop_spec pdf (length pdf - 1) 1)
      as [[j [t [Hj [Ht [Hc [Hfirst ->]]]]]]|[Hnone ->]]; [lia| |].
    - cbn [outcome inspected]. split_and!.
      + intros text i. split.
        * intros [= <- <-]. split_and!; [lia|done|done|done].
        * intros [Hi [Hti [Hci Hfi]]].
          assert (i = j) as ->.
          { destruct (Nat.lt_trichotomy i j) as [Hlt|[->|Hgt]]; [|done|].
            - specialize (Hfirst i text). rewrite Hfirst in Hci; [done|lia|done].
            - specialize (Hfi j t). rewrite Hfi in Hc; [done|lia|done]. }
          rewrite Ht in Hti. by injection Hti as ->.
      + split; [done|]. intros Hnone. specialize (Hnone j t).
        rewrite Hnone in Hc; [done|lia|done].
      + intros text i [= <- <-]. f_equal. lia.
      + done.
    - cbn [outcome inspected]. split_and!.
      + intros text i. split; [done|]. intros [Hi [Hti [Hci _]]].
        specialize (Hbound i text Hti). rewrite (Hnone i text) in Hci; [done|lia|done].
      + split; [|done]. intros _ j t Hj Ht. apply (Hnone j t); [|done].
        specialize (Hbound j t Ht). lia.
      + done.
      + done. }
  split_and!.
  - destruct (outcome r) as [[text i]|e] eqn:Hr.
    + rewrite (Hseen text i eq_refl). intros Hin%elem_of_seq. lia.
    + destruct (find_table_page_loop_spec pdf (length pdf - 1) 1)
        as [[j [t [_ [_ [_ [_ Hj]]]]]]|[_ Hj]]; [lia| |]; fold r in Hj; rewrite Hj;
        cbn [inspected]; intros Hin%elem_of_seq; lia.
  - exact Hok.
  - exact Hseen.
  - exact Hfail.
  - exact Hall.
  - intros first rest -> Hrest. apply Hfail. intros j t Hj Ht.
    unfold page_text in Ht. destruct j as [|j]; [lia|].
    apply fmap_Some in Ht as [raw [Hraw ->]]. cbn in Hraw.
    apply Hrest. by eapply list_elem_of_lookup_2.
  - intros first first' rest ->. subst r. cbn [length].
    apply find_table_page_loop_ext. intros i Hi%elem_of_seq.
    destruct i as [|i]; [lia|done].
Qed.


(** *** The table normalizer *)

Lemma DataFrame_new_inv data cols table :
  DataFrame_new data cols = Ok table ->
  table = Frame cols (imap (fun i r => (Z.of_nat i, r)) data) /\
  Forall (fun r => length r = length cols) data.
Proof.
  unfold DataFrame_new. destruct (forallb _ data) eqn:Hw; [|done].
  intros [= <-]. split; [done|].
  apply Forall_forall. intros r Hr%list_elem_of_In.
  eapply forallb_forall in Hw; [|exact Hr]. by apply Nat.eqb_eq in Hw.
Qed.

Lemma column_position_Some col cols j :
  column_position col cols = Some j -> cols !! j = Some col.
Proof.
  unfold column_position. intros [[j' c] [Hf [= ->]]]%fmap_Some.
  apply list_find_Some in Hf as [Hj [-> _]]. done.
Qed.

Ltac eleven_rows data Hlen :=
  do 11 (destruct data as [|? data]; [done|]);
  destruct data; [clear Hlen|done].

Lemma normalize_table_frame data :
  length data = 11 -> Forall (fun r => length r = 17) data ->
  normalize_table (Frame ("date" :: COLUMNS) (imap (fun i r => (Z.of_nat i, r)) data))
  = Frame ("date" :: COLUMNS) (relabelled data).
Proof.
  intros Hlen _. eleven_rows data Hlen. reflexivity.
Qed.


Lemma getitem_relabelled_label data :
  length data = 11 -> Forall (fun r => length r = 17) data ->
  getitem (Frame ("date" :: COLUMNS) (relabelled data)) "age_group"
  = (fun cells => <[9 := PStr (lit ">=90")]> (<[10 := PStr (lit "unknown")]> cells))
      <$> getitem (Frame ("date" :: COLUMNS) (imap (fun i r => (Z.of_nat i, r)) data))
            "age_group".
Proof.
  intros Hlen Hw. eleven_rows data Hlen.
  repeat match goal with
         | H : Forall _ (_ :: _) |- _ => apply Forall_cons in H as [? H]
         end.
  unfold getitem. change (column_position "age_group" _) with (Some 1).
  cbn -[lit]. rewrite !list_lookup_insert_eq by lia. done.
Qed.

Lemma getitem_relabelled_other data col :
  col <> "age_group"%string ->
  getitem (Frame ("date" :: COLUMNS) (relabelled data)) col
  = getitem (Frame ("date" :: COLUMNS) (imap (fun i r => (Z.of_nat i, r)) data)) col.
Proof.
  intros Hcol. unfold getitem. cbn [columns rows].
  destruct (column_position col ("date" :: COLUMNS)) as [j|] eqn:Hj; [|done].
  assert (j <> 1) as Hne.
  { intros ->. apply column_position_Some in Hj. by injection Hj as <-. }
  f_equal. unfold relabelled.
  repeat match goal with
         | |- context [map ?f (imap ?g ?l)] => change (map f (imap g l)) with (f <$> imap g l)
         end.
  rewrite !fmap_imap. apply imap_ext.
  intros i row _. unfold compose. cbn [snd].
  destruct (i =? 9); [by rewrite list_lookup_insert_ne|].
  destruct (i =? 10); [by rewrite list_lookup_insert_ne|done].
Qed.

(** Claim C5, as amended.  On a table built from eleven rows
    [normalize_table] rewrites the age group of row 9 to ">=90" and that
    of row 10 to "unknown", whatever they were, and changes nothing
    else: the columns, the index, every other cell of "age_group" and
    every cell of every other column are as before. *)
Theorem normalize_table_relabels data table :
  DataFrame_new data ("date" :: COLUMNS) = Ok table -> length data = 11 ->
  normalize_table table = Frame ("date" :: COLUMNS) (relabelled data) /\
  getitem (normalize_table table) "age_group"
  = (fun cells => <[9 := PStr (lit ">=90")]> (<[10 := PStr (lit "unknown")]> cells))
      <$> getitem table "age_group" /\
  (forall col, col <> "age_group"%string ->
     getitem (normalize_table table) col = getitem table col).
Proof.
  intros [-> Hw]%DataFrame_new_inv Hlen.
  rewrite (normalize_table_frame data Hlen Hw). split_and!.
  - done.
  - by apply getitem_relabelled_label.
  - intros col Hcol. by apply getitem_relabelled_other.
Qed.


(** *** The totals validator *)

Lemma present_counts cells :
  Forall (fun v => count_cell v = true) cells ->
  mapM int_cell (List.filter (fun v => negb (is_missing v)) cells)
  = Some (omap int_cell cells).
Proof.
  induction 1 as [|v cells Hv _ IH]; [done|].
  destruct v as [s|z|f|d]; try done.
  - cbn [List.filter is_missing negb omap int_cell]. cbn [mapM]. rewrite IH. done.
  - by destruct f.
Qed.

Lemma Series_sum_counts cells :
  Forall (fun v => count_cell v = true) cells ->
  Series_sum cells = Ok (PInt (present_total cells)).
Proof. intros H. unfold Series_sum. by rewrite (present_counts cells H). Qed.

Lemma Series_sum_skips_missing a b :
  Series_sum (a ++ missing :: b) = Series_sum (a ++ b).
Proof.
  unfold Series_sum. rewrite !List.filter_app. done.
Qed.

Lemma validated_column_exists table col :
  columns table = "date" :: COLUMNS -> col ∈ validated_columns ->
  exists cells, getitem table col = Ok cells.
Proof.
  intros Hcols Hcol. unfold getitem. rewrite Hcols.
  repeat (apply elem_of_cons in Hcol as [->|Hcol]; [by eexists|]).
  by apply elem_of_nil in Hcol.
Qed.

Lemma report_table_column_sum table col :
  report_table table -> col ∈ validated_columns ->
  exists cells, getitem table col = Ok cells /\
                column_sum table col = Ok (PInt (present_total cells)).
Proof.
  intros [Hcols [_ Hcounts]] Hcol.
  destruct (validated_column_exists table col Hcols Hcol) as [cells Hcells].
  exists cells. split; [done|]. unfold column_sum. rewrite Hcells.
  cbn [mbind result_bind]. apply Series_sum_counts. by apply (Hcounts col).
Qed.

Lemma sanity_check_loop_spec table totals cols :
  (forall col, col ∈ cols ->
     exists a e, column_sum table col = Ok a /\ totals !! col = Some e) ->
  (sanity_check_loop table totals cols = Ok () /\
   forall col, col ∈ cols ->
     exists a e, column_sum table col = Ok a /\ totals !! col = Some e /\
                 py_ne a e = false) \/
  (exists col a e,
     col ∈ cols /\ column_sum table col = Ok a /\ totals !! col = Some e /\
     py_ne a e = true /\
     sanity_check_loop table totals cols
     = Raise (TableExtractionError (inconsistent_sum col a e))).
Proof.
  induction cols as [|col cols IH]; intros Hall.
  - left. split; [done|]. by intros col ?%elem_of_nil.
  - destruct (Hall col) as [a [e [Ha He]]]; [set_solver|].
    cbn [sanity_check_loop]. unfold column_sum in Ha. rewrite Ha, He.
    cbn [mbind result_bind]. destruct (py_ne a e) eqn:Hne.
    + right. exists col, a, e. split_and!; [set_solver|done|done|done|done].
    + destruct IH as [[Hok Hrest]|[col' [a' [e' [Hin [Ha' [He' [Hne' Hr]]]]]]]].
      * intros c Hc. apply Hall. set_solver.
      * left. split; [done|]. intros c [->|Hc]%elem_of_cons; [|by apply Hrest].
        by exists a, e.
      * right. exists col', a', e'. split_and!; [set_solver|done|done|done|done].
Qed.




(** *** The row builder *)

Lemma traverse_Ok {A B} (f : A -> result B) l ys :
  traverse f l = Ok ys <-> Forall2 (fun x y => f x = Ok y) l ys.
Proof.
  revert ys. induction l as [|x l IH]; intros ys; cbn [traverse].
  - split; [intros [= <-]; constructor|]. by intros ->%Forall2_nil_inv_l.
  - split.
    + destruct (f x) as [y|e] eqn:Hx; [|done]. cbn [mbind result_bind].
      destruct (traverse f l) as [ys'|e] eqn:Hl; [|done]. cbn [mbind result_bind].
      intros [= <-]. constructor; [done|]. by apply IH.
    + intros (y & ys' & Hy & Hys & ->)%Forall2_cons_inv_l.
      rewrite Hy. cbn [mbind result_bind]. apply IH in Hys. by rewrite Hys.
Qed.

Lemma traverse_Raise {A B} (f : A -> result B) l e :
  traverse f l = Raise e -> exists x, x ∈ l /\ f x = Raise e.
Proof.
  induction l as [|x l IH]; cbn [traverse]; [done|].
  destruct (f x) as [y|e'] eqn:Hx; cbn [mbind result_bind].
  - destruct (traverse f l) as [ys'|e'] eqn:Hl; cbn [mbind result_bind]; [done|].
    intros [= ->]. destruct IH as [x' [Hin Hx']]; [done|]. exists x'. split; [set_solver|done].
  - intros [= ->]. exists x. split; [set_solver|done].
Qed.

Lemma traverse_total {A B} (f : A -> result B) l :
  (forall x, x ∈ l -> exists y, f x = Ok y) -> exists ys, traverse f l = Ok ys.
Proof.
  intros Hall. destruct (traverse f l) as [ys|e] eqn:Hl; [by eexists|].
  apply traverse_Raise in Hl as [x [Hin Hx]].
  destruct (Hall x Hin) as [y Hy]. congruence.
Qed.

Lemma traverse_length {A B} (f : A -> result B) l ys :
  traverse f l = Ok ys -> length ys = length l.
Proof. intros H%traverse_Ok. symmetry. by eapply Forall2_length. Qed.

Lemma converters_list :
  COLUMN_CONVERTERS
  = [str_; on_token to_int; on_token to_float; on_token to_int; on_token to_float;
     on_token to_float; on_token to_int; on_token to_float; on_token to_int;
     on_token to_float; on_token to_float; on_token to_int; on_token to_float;
     on_token to_int; on_token to_float; on_token to_float].
Proof. reflexivity. Qed.

Lemma to_int_raises t e : to_int (PStr t) = Raise e -> e = ValueError.
Proof.
  unfold to_int. destruct (negb _); [done|]. cbn [attr_replace mbind result_bind].
  unfold int. by destruct (long_from_string _); intros [=].
Qed.

Lemma to_float_raises t e : to_float (PStr t) = Raise e -> e = ValueError.
Proof.
  unfold to_float. destruct (negb _); [done|]. cbn [attr_replace mbind result_bind].
  unfold float. by destruct (_ ≫= _); intros [=].
Qed.

Lemma converter_raises conv t e :
  conv ∈ COLUMN_CONVERTERS -> conv t = Raise e -> e = ValueError.
Proof.
  rewrite converters_list. intros Hin.
  repeat (apply elem_of_cons in Hin as [->|Hin];
          [first [done|apply to_int_raises|apply to_float_raises]|]).
  by apply elem_of_nil in Hin.
Qed.

Lemma convert_values_Ok values convs out :
  convert_values values convs = Ok out <->
  length values = length convs /\
  Forall2 (fun vc y => vc.2 vc.1 = Ok y) (zip values convs) out.
Proof.
  unfold convert_values. destruct (Nat.eqb_spec (length values) (length convs)) as [Hl|Hl].
  - cbn [negb]. rewrite traverse_Ok. split; [by intros ?|by intros [_ ?]].
  - cbn [negb]. split; [done|by intros [? _]].
Qed.

Lemma convert_values_raises values e :
  convert_values values COLUMN_CONVERTERS = Raise e -> e = ValueError.
Proof.
  unfold convert_values. destruct (negb _); [by intros [=]|].
  intros [[v c] [Hin Hr]]%traverse_Raise. cbn [fst snd] in Hr.
  apply (converter_raises c v); [|done].
  apply list_elem_of_lookup in Hin as [k Hk].
  apply lookup_zip_with_Some in Hk as (v' & c' & [= -> ->] & _ & Hc).
  by eapply list_elem_of_lookup_2.
Qed.


Lemma rows_of_tokens_rows date tokens :
  rows_of_tokens date tokens = traverse (row_of_tokens date tokens) (seq 0 11).
Proof.
  unfold rows_of_tokens, row_of_tokens, slice.
  change (length COLUMNS) with 16. reflexivity.
Qed.


Lemma converters_length : length COLUMN_CONVERTERS = 16.
Proof. reflexivity. Qed.

Lemma row_token_lookup (tokens : list str) i k :
  k < 16 -> take 16 (drop (i * 16) tokens) !! k = tokens !! (i * 16 + k).
Proof. intros Hk. by rewrite lookup_take_lt, lookup_drop. Qed.

Lemma converter_of_column i k c :
  k < 16 -> COLUMN_CONVERTERS !! k = Some c -> converter_of (i * 16 + k) = c.
Proof.
  intros Hk Hc. unfold converter_of.
  replace ((i * 16 + k) mod 16) with k; [by rewrite Hc|].
  rewrite Nat.add_comm, Nat.Div0.mod_add. symmetry. by apply Nat.mod_small.
Qed.

Lemma row_of_tokens_raises date tokens i e :
  row_of_tokens date tokens i = Raise e -> e = ValueError.
Proof.
  unfold row_of_tokens.
  destruct (convert_values _ _) as [values|e'] eqn:Hv; cbn [mbind result_bind]; [done|].
  intros [= ->]. by apply convert_values_raises in Hv.
Qed.

Lemma row_of_tokens_Ok date tokens i row :
  row_of_tokens date tokens i = Ok row ->
  (i + 1) * 16 <= length tokens /\ length row = 17 /\
  forall k t, k < 16 -> tokens !! (i * 16 + k) = Some t ->
    is_ok (converter_of (i * 16 + k) t) = true.
Proof.
  unfold row_of_tokens.
  destruct (convert_values _ _) as [values|e'] eqn:Hv; cbn [mbind result_bind]; [|done].
  intros [= <-]. apply convert_values_Ok in Hv as [Hlen Hall].
  rewrite converters_length, length_take, length_drop in Hlen.
  split_and!.
  - lia.
  - apply Forall2_length in Hall. rewrite length_zip_with in Hall.
    rewrite converters_length, length_take, length_drop in Hall. cbn [length]. lia.
  - intros k t Hk Ht.
    destruct (lookup_lt_is_Some_2 COLUMN_CONVERTERS k) as [c Hc];
      [rewrite converters_length; lia|].
    rewrite (converter_of_column i k c Hk Hc).
    assert (zip (take 16 (drop (i * 16) tokens)) COLUMN_CONVERTERS !! k = Some (t, c)) as Hz.
    { apply lookup_zip_with_Some. exists t, c. split_and!; [done| |done].
      by rewrite row_token_lookup. }
    destruct (Forall2_lookup_l _ _ _ _ _ Hall Hz) as [y [_ Hy]]. cbn [fst snd] in Hy.
    by rewrite Hy.
Qed.

Lemma row_of_tokens_total date tokens i :
  (i + 1) * 16 <= length tokens ->
  (forall k t, k < 16 -> tokens !! (i * 16 + k) = Some t ->
     is_ok (converter_of (i * 16 + k) t) = true) ->
  exists row, row_of_tokens date tokens i = Ok row.
Proof.
  intros Hlen Hall. unfold row_of_tokens.
  assert (exists values,
            convert_values (take 16 (drop (i * 16) tokens)) COLUMN_CONVERTERS
            = Ok values) as [values ->]; [|by eexists].
  unfold convert_values.
  rewrite converters_length, length_take, length_drop.
  replace (16 `min` (length tokens - i * 16)) with 16 by lia. cbn [Nat.eqb negb].
  apply traverse_total. intros [t c] Hin.
  apply list_elem_of_lookup in Hin as [k Hk].
  apply lookup_zip_with_Some in Hk as (t' & c' & [= <- <-] & Ht & Hc).
  assert (k < 16) as Hk.
  { apply lookup_lt_Some in Hc. by rewrite converters_length in Hc. }
  rewrite row_token_lookup in Ht by done.
  specialize (Hall k t Hk Ht). rewrite (converter_of_column i k c Hk Hc) in Hall.
  cbn [fst snd]. destruct (c t) as [y|]; [by eexists|done].
Qed.

Lemma token_position j : j < 176 -> exists i k, i < 11 /\ k < 16 /\ j = i * 16 + k.
Proof.
  intros Hj. exists (j / 16), (j mod 16). split_and!.
  - apply Nat.Div0.div_lt_upper_bound. lia.
  - apply Nat.mod_upper_bound. lia.
  - rewrite Nat.mul_comm. apply Nat.div_mod_eq.
Qed.

Lemma rows_of_tokens_raises date tokens e :
  rows_of_tokens date tokens = Raise e -> e = ValueError.
Proof.
  rewrite rows_of_tokens_rows. intros [i [_ Hi]]%traverse_Raise.
  by apply row_of_tokens_raises in Hi.
Qed.

Lemma rows_of_tokens_Ok date tokens rows :
  rows_of_tokens date tokens = Ok rows ->
  176 <= length tokens /\
  (forall j t, j < 176 -> tokens !! j = Some t -> is_ok (converter_of j t) = true) /\
  length rows = 11 /\ Forall (fun r => length r = 17) rows.
Proof.
  rewrite rows_of_tokens_rows. intros Hrows. pose proof Hrows as Hlen%traverse_length.
  apply traverse_Ok in Hrows.
  assert (forall i, i < 11 -> exists row, row_of_tokens date tokens i = Ok row) as Hrow.
  { intros i Hi.
    destruct (Forall2_lookup_l _ _ _ i i Hrows) as [row [_ Hr]]; [|by eexists].
    by apply lookup_seq. }
  split_and!.
  - destruct (Hrow 10) as [row Hr]; [lia|].
    apply row_of_tokens_Ok in Hr as [Hr _]. lia.
  - intros j t Hj Ht. destruct (token_position j Hj) as (i & k & Hi & Hk & ->).
    destruct (Hrow i Hi) as [row Hr].
    apply row_of_tokens_Ok in Hr as (_ & _ & Hr). by apply Hr.
  - exact Hlen.
  - apply Forall_forall. intros row Hin.
    apply list_elem_of_lookup in Hin as [i Hi].
    destruct (Forall2_lookup_r _ _ _ _ _ Hrows Hi) as [i' [_ Hr]].
    by apply row_of_tokens_Ok in Hr as (_ & Hr & _).
Qed.

Lemma rows_of_tokens_total date tokens :
  176 <= length tokens ->
  (forall j t, j < 176 -> tokens !! j = Some t -> is_ok (converter_of j t) = true) ->
  exists rows, rows_of_tokens date tokens = Ok rows.
Proof.
  intros Hlen Hall. rewrite rows_of_tokens_rows. apply traverse_total.
  intros i [_ Hi]%elem_of_seq. apply row_of_tokens_total; [lia|].
  intros k t Hk Ht. apply Hall; [lia|done].
Qed.


Lemma traverse_ext {A B} (f g : A -> result B) l :
  (forall x, x ∈ l -> f x = g x) -> traverse f l = traverse g l.
Proof.
  induction l as [|x l IH]; intros Hfg; [done|]. cbn [traverse].
  rewrite (Hfg x) by set_solver. rewrite IH; [done|].
  intros y Hy. apply Hfg. set_solver.
Qed.

Lemma row_tokens_prefix (tokens : list str) i :
  i < 11 ->
  take 16 (drop (i * 16) (take 176 tokens)) = take 16 (drop (i * 16) tokens).
Proof.
  intros Hi. apply list_eq. intros k. destruct (decide (k < 16)) as [Hk|Hk].
  - rewrite !lookup_take_lt, !lookup_drop by done. apply lookup_take_lt. lia.
  - rewrite !lookup_take_ge by lia. done.
Qed.

Lemma rows_of_tokens_prefix date tokens :
  rows_of_tokens date (take 176 tokens) = rows_of_tokens date tokens.
Proof.
  rewrite !rows_of_tokens_rows. apply traverse_ext.
  intros i [_ Hi]%elem_of_seq. unfold row_of_tokens.
  by rewrite row_tokens_prefix by lia.
Qed.

Lemma build_rows_of_tokens date page tokens :
  tokenize page = Ok tokens ->
  build_rows date page
  = (rows ← rows_of_tokens date tokens;
     df ← DataFrame_new rows ("date" :: COLUMNS);
     mret (normalize_table df)).
Proof. intros Htok. unfold build_rows. by rewrite Htok. Qed.

Lemma tokenize_total page : exists tokens, tokenize page = Ok tokens.
Proof. unfold tokenize. change (lit " ") with [32%N]. by eexists. Qed.

Lemma DataFrame_new_total data cols :
  Forall (fun r => length r = length cols) data ->
  DataFrame_new data cols = Ok (Frame cols (imap (fun i r => (Z.of_nat i, r)) data)).
Proof.
  intros Hw. unfold DataFrame_new.
  assert (forallb (fun r => length r =? length cols) data = true) as ->; [|done].
  apply forallb_forall. intros r Hr%list_elem_of_In.
  eapply Forall_forall in Hw; [|exact Hr]. by apply Nat.eqb_eq.
Qed.

Lemma build_rows_of_rows date page tokens rows :
  tokenize page = Ok tokens -> rows_of_tokens date tokens = Ok rows ->
  build_rows date page
  = Ok (normalize_table
          (Frame ("date" :: COLUMNS) (imap (fun i r => (Z.of_nat i, r)) rows))).
Proof.
  intros Htok Hrows. unfold build_rows. rewrite Htok. cbn [mbind result_bind].
  rewrite Hrows. cbn [mbind result_bind].
  apply rows_of_tokens_Ok in Hrows as (_ & _ & _ & Hw).
  by rewrite (DataFrame_new_total rows ("date" :: COLUMNS) Hw).
Qed.

Lemma build_rows_raises date page e :
  build_rows date page = Raise e -> e = ValueError.
Proof.
  destruct (tokenize_total page) as [tokens Htok].
  destruct (rows_of_tokens date tokens) as [rows|e'] eqn:Hrows.
  - by rewrite (build_rows_of_rows date page tokens rows Htok Hrows).
  - unfold build_rows. rewrite Htok. cbn [mbind result_bind]. rewrite Hrows.
    cbn [mbind result_bind]. intros [= <-]. by apply rows_of_tokens_raises in Hrows.
Qed.

(** Claim C1, as amended.  [build_rows] returns a table exactly when the
    page has at least 176 tokens and each of the first 176 converts
    under the converter of its column.  With fewer than 176 tokens, or
    with one of the first 176 that does not convert, it raises
    ValueError, and it raises nothing else.  The tokens behind the first
    176 are not looked at: two pages that agree on these give the same
    result. *)
Theorem build_rows_needs_176_tokens (date : pyval) (page : str) :
  exists tokens, tokenize page = Ok tokens /\
    ((exists table, build_rows date page = Ok table) <->
       176 <= length tokens /\
       forall j t, j < 176 -> tokens !! j = Some t ->
         is_ok (converter_of j t) = true) /\
    (length tokens < 176 -> build_rows date page = Raise ValueError) /\
    (forall j t, j < 176 -> tokens !! j = Some t ->
       is_ok (converter_of j t) = false ->
       build_rows date page = Raise ValueError) /\
    (forall e, build_rows date page = Raise e -> e = ValueError) /\
    (forall page' tokens', tokenize page' = Ok tokens' ->
       take 176 tokens' = take 176 tokens ->
       build_rows date page' = build_rows date page).
Proof.
  destruct (tokenize_total page) as [tokens Htok]. exists tokens.
  assert ((exists table, build_rows date page = Ok table) <->
            176 <= length tokens /\
            forall j t, j < 176 -> tokens !! j = Some t ->
              is_ok (converter_of j t) = true) as Hiff.
  { split.
    - intros [table Htable].
      destruct (rows_of_tokens date tokens) as [rows|e] eqn:Hrows.
      + by apply rows_of_tokens_Ok in Hrows as (? & ? & _).
      + unfold build_rows in Htable. rewrite Htok in Htable.
        cbn [mbind result_bind] in Htable. by rewrite Hrows in Htable.
    - intros [Hlen Hall].
      destruct (rows_of_tokens_total date tokens Hlen Hall) as [rows Hrows].
      rewrite (build_rows_of_rows date page tokens rows Htok Hrows). by eexists. }
  assert (forall P : Prop, (P -> ~ exists table, build_rows date page = Ok table) ->
            P -> build_rows date page = Raise ValueError) as Hfail.
  { intros P HP Hp. destruct (build_rows date page) as [table|e] eqn:Hb.
    - exfalso. apply (HP Hp). by eexists.
    - by rewrite (build_rows_raises date page e Hb). }
  split_and!.
  - done.
  - exact Hiff.
  - apply Hfail. intros Hlen [Hge _]%Hiff. lia.
  - intros j t Hj Ht. apply Hfail. intros Hbad [_ Hall]%Hiff.
    rewrite (Hall j t Hj Ht) in Hbad. done.
  - apply build_rows_raises.
  - intros page' tokens' Htok' Hsame.
    rewrite (build_rows_of_tokens date page' tokens' Htok').
    rewrite (build_rows_of_tokens date page tokens Htok).
    by rewrite <- (rows_of_tokens_prefix date tokens'), Hsame, rows_of_tokens_prefix.
Qed.


(** *** The date and time extractor *)

Lemma time_pattern_o g rest :
  time_pattern g (lit " ore o9:o5" ++ rest)
  = [(<["minute" := lit "o5"]> (<["hour" := lit "o9"]> g), lit " ore o9:o5", rest)].
Proof. reflexivity. Qed.

Lemma time_pattern_0 g rest :
  time_pattern g (lit " ore 09:05" ++ rest)
  = [(<["minute" := lit "05"]> (<["hour" := lit "09"]> g), lit " ore 09:05", rest)].
Proof. reflexivity. Qed.

Lemma cat_head (p q : pattern) g s g1 w1 s1 g2 w2 s2 :
  head (p g s) = Some (g1, w1, s1) ->
  head (q g1 s1) = Some (g2, w2, s2) ->
  head (cat p q g s) = Some (g2, w1 ++ w2, s2).
Proof.
  unfold cat. destruct (p g s) as [|a l]; [done|]. intros [= ->].
  destruct (q g1 s1) as [|b l'] eqn:Hq; [done|]. intros [= ->].
  cbn. rewrite Hq. done.
Qed.

Lemma search_head p s g w rest :
  head (p ∅ s) = Some (g, w, rest) -> search p s = Some (Match 0 (length w) g).
Proof.
  unfold search. destruct s; cbn [search_from]; unfold match_at;
    destruct (p ∅ _) as [|a l]; try done; by intros [= ->].
Qed.

Lemma date_groups (g : gmap string str) (h m : str) :
  delete "hour" (delete "minute" (<["minute" := m]> (<["hour" := h]> g)))
  = delete "hour" (delete "minute" g).
Proof.
  rewrite delete_insert_eq. rewrite (delete_insert_ne _ "minute" "hour") by done.
  by rewrite delete_insert_eq.
Qed.

Lemma tokens_of_time (g : gmap string str) (h m : str) :
  process_datetime_tokens (<["minute" := m]> (<["hour" := h]> g))
  = '(year, month, day) ← date_of_tokens (delete "hour" (delete "minute" g));
    hour ← int (replace (lit "o") (lit "0") h);
    minute ← int (replace (lit "o") (lit "0") m);
    mret (year, month, day, hour, minute).
Proof.
  unfold process_datetime_tokens. rewrite date_groups.
  rewrite (lookup_insert_ne _ "minute" "hour") by done.
  by rewrite !lookup_insert_eq.
Qed.



(** *** The tables [build_rows] returns are tables of the report *)

Lemma to_int_count t y : to_int (PStr t) = Ok y -> count_cell y = true.
Proof.
  unfold to_int. destruct (negb _); [by intros [= <-]|].
  cbn [attr_replace mbind result_bind]. destruct (int _); [|done]. by intros [= <-].
Qed.

Lemma row_of_tokens_cell date tokens i row k y :
  row_of_tokens date tokens i = Ok row -> row !! S k = Some y ->
  exists t c, COLUMN_CONVERTERS !! k = Some c /\ c t = Ok y.
Proof.
  unfold row_of_tokens.
  destruct (convert_values _ _) as [values|e'] eqn:Hv; cbn [mbind result_bind]; [|done].
  intros [= <-] Hy. cbn in Hy. apply convert_values_Ok in Hv as [_ Hall].
  destruct (Forall2_lookup_r _ _ _ _ _ Hall Hy) as [[t c] [Hz Hc]].
  apply lookup_zip_with_Some in Hz as (t' & c' & [= <- <-] & _ & Hk).
  by exists t, c.
Qed.

Lemma row_of_tokens_counts date tokens i row j :
  row_of_tokens date tokens i = Ok row -> j ∈ count_positions ->
  count_cell (default missing (row !! j)) = true.
Proof.
  intros Hrow Hj. destruct (row !! j) as [y|] eqn:Hy; [|done]. cbn [default].
  unfold count_positions in Hj.
  repeat (apply elem_of_cons in Hj as [->|Hj];
          [destruct (row_of_tokens_cell _ _ _ _ _ _ Hrow Hy) as (t & c & [= <-] & Hc);
           by apply to_int_count in Hc|]).
  by apply elem_of_nil in Hj.
Qed.

Lemma validated_position col :
  col ∈ validated_columns ->
  exists j, column_position col ("date" :: COLUMNS) = Some j /\ j ∈ count_positions.
Proof.
  intros Hcol. unfold count_positions.
  repeat (apply elem_of_cons in Hcol as [->|Hcol];
          [eexists; split; [reflexivity|apply list_elem_of_In; cbn; lia]|]).
  by apply elem_of_nil in Hcol.
Qed.

Lemma build_rows_report_table date page table :
  build_rows date page = Ok table -> report_table table.
Proof.
  intros Htable. destruct (tokenize_total page) as [tokens Htok].
  destruct (rows_of_tokens date tokens) as [rows|e] eqn:Hrows; cycle 1.
  { unfold build_rows in Htable. rewrite Htok in Htable.
    cbn [mbind result_bind] in Htable. by rewrite Hrows in Htable. }
  rewrite (build_rows_of_rows date page tokens rows Htok Hrows) in Htable.
  injection Htable as <-.
  pose proof (rows_of_tokens_Ok date tokens rows Hrows) as (_ & _ & Hlen & Hw).
  rewrite (normalize_table_frame rows Hlen Hw). split_and!.
  - done.
  - cbn [Pandas.rows]. unfold relabelled. by rewrite length_imap.
  - intros col cells Hcol Hcells.
    rewrite getitem_relabelled_other in Hcells; cycle 1.
    { intros ->. apply validated_position in Hcol as (j & [= <-] & Hj).
      apply list_elem_of_In in Hj. cbn in Hj. lia. }
    destruct (validated_position col Hcol) as (j & Hpos & Hj).
    unfold getitem in Hcells. cbn [columns] in Hcells.
    rewrite Hpos in Hcells. injection Hcells as <-.
    cbn [Pandas.rows]. apply Forall_forall. intros v Hv.
    apply list_elem_of_In, in_map_iff in Hv as [[label row] [<- Hin]]. cbn [snd].
    apply list_elem_of_In, list_elem_of_lookup in Hin as [i Hi].
    apply list_lookup_imap_Some in Hi as (row' & Hrow' & [= _ <-]).
    rewrite rows_of_tokens_rows in Hrows. apply traverse_Ok in Hrows.
    destruct (Forall2_lookup_r _ _ _ _ _ Hrows Hrow') as [i' [_ Hr]].
    by eapply row_of_tokens_counts.
Qed.

End properties.

(** ** The statements on the sample documents *)

Lemma sample_table_built :
  build_rows (U := ascii_only) (PDatetime sample_date) sample_page = Ok sample_table.
Proof. vm_compute. reflexivity. Qed.

Lemma blank_table_built :
  build_rows (U := ascii_only) (PDatetime sample_date) blank_page = Ok blank_table.
Proof. vm_compute. reflexivity. Qed.

Lemma sample_table_report : report_table sample_table.
Proof. exact (build_rows_report_table _ _ _ sample_table_built). Qed.

Lemma blank_table_report : report_table blank_table.
Proof. exact (build_rows_report_table _ _ _ blank_table_built). Qed.

Lemma sample_totals_cover col :
  col ∈ validated_columns -> is_Some (wrong_totals !! col).
Proof.
  intros Hcol.
  repeat (apply elem_of_cons in Hcol as [->|Hcol]; [by eexists|]).
  exfalso. exact (proj1 (elem_of_nil _) Hcol).
Qed.

Lemma blank_table_totals col cells :
  col ∈ validated_columns -> getitem blank_table col = Ok cells ->
  sample_totals !! col = Some (PInt (present_total cells)).
Proof.
  intros Hcol.
  repeat (apply elem_of_cons in Hcol as [->|Hcol];
          [vm_compute; by intros [= <-]|]).
  exfalso. exact (proj1 (elem_of_nil _) Hcol).
Qed.

(** The report of 12 March 2021, end to end: the three pages are read,
    and the table is the one of the sample page, dated 09:30. *)
Example extract_sample_pdf :
  extract (U := ascii_only) (C := sample_common (U := ascii_only)) sample_pdf
  = Traced (Ok sample_table) [0; 1; 2].
Proof. vm_compute. reflexivity. Qed.

Example to_float_one_tenth :
  to_float (U := ascii_only) (PStr (lit "0,1"))
  = Ok (PFloat (S754_finite false 7205759403792794 (-56))).
Proof. reflexivity. Qed.

Example to_int_embedded_space :
  to_int (U := ascii_only) (PStr (lit "12 345")) = Ok (PInt 12345).
Proof. reflexivity. Qed.


(** C8 at "12,5", which is 12.5. *)
Lemma to_float_comma_witness :
  lit "12,5" <> [] /\
  to_float (U := ascii_only) (PStr (lit "12,5"))
  = Ok (PFloat (S754_finite false 7036874417766400 (-49))).
Proof.
  split; [discriminate|].
  destruct (to_float_decimal_comma (U := ascii_only) (lit "12,5")) as [_ H];
    [discriminate|].
  destruct (H (lit "12") (lit "5")) as [Hvalue Hconv].
  - reflexivity.
  - discriminate.
  - repeat constructor.
  - repeat constructor.
  - rewrite Hconv, Hvalue. reflexivity.
Defined.

(** C6: the converters do not take the missing marker back. *)
Lemma missing_marker_is_not_reconverted :
  to_int (U := ascii_only) (PFloat nan) <> Ok (PFloat nan) /\
  to_float (U := ascii_only) (PFloat nan) <> Ok (PFloat nan).
Proof. split; discriminate. Qed.

(** C4 at "3, 5". *)
Lemma repair_witness :
  contains (lit ", ") (lit "3" ++ lit ",") = false /\
  replace (lit ", ") (lit ",") (lit "3" ++ lit ", " ++ lit "5") = lit "3,5".
Proof.
  split; [reflexivity|].
  destruct (repair_collapses_comma_space (U := ascii_only)) as [H _].
  exact (H (lit "3") (lit "5") eq_refl).
Defined.

(** C4: a comma and a space between letters are collapsed as well. *)
Lemma repair_changes_text_between_letters :
  replace (lit ", ") (lit ",") (lit "a, b") <> lit "a, b" /\
  tokenize (U := ascii_only) (lit "0-9 a, b") = Ok [lit "0-9"; lit "a,b"].
Proof. split; [discriminate|reflexivity]. Qed.

(** C3: the caption on page 0 alone is not found. *)
Lemma find_table_page_witness :
  has_caption (U := ascii_only) sample_page = true /\
  outcome (find_table_page (U := ascii_only) [sample_page; lit "Indice"])
  = Raise (TableExtractionError table_not_found).
Proof.
  split; [by vm_compute|].
  destruct (find_table_page_skips_first_page (U := ascii_only) [sample_page; lit "Indice"])
    as (_ & _ & _ & _ & _ & H & _).
  apply (H sample_page [lit "Indice"] eq_refl).
  intros t Ht. apply list_elem_of_In in Ht. destruct Ht as [<-|[]]. reflexivity.
Defined.

(** The rows of the sample page as [extract] has them before it
    normalizes the table: row 9 is labelled "≥90". *)
Lemma sample_rows_frame :
  DataFrame_new sample_rows ("date" :: COLUMNS) = Ok raw_table /\
  length sample_rows = 11.
Proof. split; [by vm_compute|reflexivity]. Qed.

(** C5 on the sample rows. *)
Lemma normalize_table_witness :
  DataFrame_new sample_rows ("date" :: COLUMNS) = Ok raw_table /\
  length sample_rows = 11 /\
  getitem (normalize_table raw_table) "cases" = getitem raw_table "cases".
Proof.
  destruct sample_rows_frame as [Hnew Hlen]. split; [exact Hnew|]. split; [exact Hlen|].
  destruct (normalize_table_relabels sample_rows raw_table Hnew Hlen) as (_ & _ & H).
  apply H. discriminate.
Defined.

(** C5: the label written into row 9 is the ASCII ">=90". *)
Lemma normalize_table_writes_ascii_label :
  (fun cells => cells !! 9) <$> getitem raw_table "age_group"
    = Ok (Some (PStr ge_90)) /\
  (fun cells => cells !! 9) <$> getitem (normalize_table raw_table) "age_group"
    = Ok (Some (PStr (lit ">=90"))) /\
  PStr (lit ">=90") <> PStr ge_90.
Proof. split; [by vm_compute|]. split; [by vm_compute|discriminate]. Qed.



(** C1: ten rows are too few. *)
Lemma build_rows_witness :
  length <$> tokenize (U := ascii_only) short_page = Ok 160 /\
  build_rows (U := ascii_only) (PDatetime sample_date) short_page = Raise ValueError.
Proof.
  split; [by vm_compute|].
  destruct (build_rows_needs_176_tokens (U := ascii_only) (PDatetime sample_date) short_page)
    as (tokens & Htok & _ & H & _).
  apply H.
  assert (length <$> tokenize (U := ascii_only) short_page = Ok 160) as Hlen
    by (by vm_compute).
  rewrite Htok in Hlen. injection Hlen as ->.
  apply Nat.ltb_lt. reflexivity.
Defined.

(** C1: the sample page has 179 tokens, and yields its table. *)
Lemma build_rows_accepts_trailing_tokens :
  length <$> tokenize (U := ascii_only) sample_page = Ok 179 /\
  179 <> 11 * 16 /\
  build_rows (U := ascii_only) (PDatetime sample_date) sample_page = Ok sample_table.
Proof. split; [by vm_compute|]. split; [discriminate|exact sample_table_built]. Qed.


(** ** Further properties of the code *)

Section further_properties.
Context {U : Unicode} {C : Common}.

(** *** The patterns *)

Lemma digit_cases c :
  c_isdigit c = true ->
  (c = 48 \/ c = 49 \/ c = 50 \/ c = 51 \/ c = 52 \/
   c = 53 \/ c = 54 \/ c = 55 \/ c = 56 \/ c = 57)%N.
Proof.
  unfold c_isdigit. intros [H1 H2]%andb_prop.
  apply N.leb_le in H1. apply N.leb_le in H2. lia.
Qed.

Ltac each_digit H :=
  apply digit_cases in H;
  destruct H as [->|[->|[->|[->|[->|[->|[->|[->|[->| ->]]]]]]]]].

(** Property X1.  Of the hours written with two digits the pattern of
    the hour, followed by ':', accepts exactly 00 to 31, so also 24 to
    31, and captures both digits; of the minutes written with two digits
    the pattern of the minute accepts exactly 00 to 59. *)
Theorem clock_patterns_ranges (c1 c2 : char) (g : gmap string str) (r : str) :
  c_isdigit c1 = true -> c_isdigit c2 = true ->
  cat (named "hour" hour_pattern) (text true (lit ":")) g ([c1; c2] ++ lit ":" ++ r)
  = (if (base10 [c1; c2] <=? 31)%Z
     then [(<["hour" := [c1; c2]]> g, [c1; c2] ++ lit ":", r)] else []) /\
  named "minute" minute_pattern g ([c1; c2] ++ r)
  = (if (base10 [c1; c2] <=? 59)%Z
     then [(<["minute" := [c1; c2]]> g, [c1; c2], r)] else []).
Proof.
  intros H1 H2. each_digit H1; each_digit H2; split; reflexivity.
Qed.

Lemma ascii_lower_letter c p :
  ascii_lower c = p -> (97 <= p <= 122)%N -> c = p \/ c = (p - 32)%N.
Proof.
  unfold ascii_lower. destruct ((65 <=? c) && (c <=? 90))%N eqn:Hup.
  - intros <- _. right. lia.
  - intros <- _. by left.
Qed.

Lemma ascii_lower_space c : ascii_lower c = 32%N -> c = 32%N.
Proof.
  unfold ascii_lower. destruct ((65 <=? c) && (c <=? 90))%N eqn:Hup; [|done].
  apply andb_prop in Hup as [H1 H2]. apply N.leb_le in H1. lia.
Qed.

Ltac either_case H :=
  apply ascii_lower_letter in H; [|lia]; cbn in H; destruct H as [-> | ->].

Lemma char_test_same p : char_test true p p = true.
Proof.
  unfold char_test. cbn [andb]. destruct (iscased p); [|apply N.eqb_refl].
  unfold matches_lowered. by rewrite N.eqb_refl.
Qed.

Lemma text_matches pat w g rest :
  Forall2 (fun p c => char_test true p c = true) pat w ->
  text true pat g (w ++ rest) = [(g, w, rest)].
Proof.
  induction 1 as [|p c pat w Hp _ IH]; [done|].
  cbn [text foldr app]. unfold cat at 1. cbn [one]. rewrite Hp.
  fold (text true pat). cbn. rewrite IH. done.
Qed.

Lemma unknown_age_phrase (rest : str) :
  sub unknown_age_matcher (lit "unknown")
      (lit "et" ++ [224%N] ++ lit " non nota" ++ rest)
  = lit "unknown" ++ sub unknown_age_matcher (lit "unknown") rest.
Proof.
  set (phrase := lit "et" ++ [224%N] ++ lit " non nota").
  assert (match_at unknown_age_matcher (phrase ++ rest) 0 = Some (Match 0 12 ∅)) as Hm.
  { unfold match_at, unknown_age_matcher, alt.
    rewrite (text_matches phrase phrase ∅ rest); [done|].
    subst phrase. repeat constructor; apply char_test_same. }
  change (lit "et" ++ [224%N] ++ lit " non nota" ++ rest) with (phrase ++ rest).
  unfold sub. change (phrase ++ rest) with (101%N :: (tl phrase ++ rest)) in *.
  cbn [sub_from]. rewrite Hm. cbn [stop]. reflexivity.
Qed.

(** Property X2.  A label of the unknown age at the head of a text
    becomes the one token "unknown", and the replacement goes on behind
    it: so for "non noto" and "non nota" in any mix of upper and lower
    case, and for the lower-case phrase with the accented "et" in
    front. *)
Theorem unknown_age_label_is_one_token (w rest : str) :
  map ascii_lower w = lit "non noto" \/ map ascii_lower w = lit "non nota" \/
  w = lit "et" ++ [224%N] ++ lit " non nota" ->
  sub unknown_age_matcher (lit "unknown") (w ++ rest)
  = lit "unknown" ++ sub unknown_age_matcher (lit "unknown") rest.
Proof.
  intros Hcase.
  assert (w = lit "et" ++ [224%N] ++ lit " non nota" \/
          (map ascii_lower w = lit "non noto" \/ map ascii_lower w = lit "non nota"))
    as [-> |Hw] by (destruct Hcase as [?|[?|?]]; auto).
  { rewrite <- !app_assoc. apply unknown_age_phrase. }
  clear Hcase.
  assert (exists c0 c1 c2 c3 c4 c5 c6 c7, w = [c0; c1; c2; c3; c4; c5; c6; c7] /\
            ascii_lower c0 = 110%N /\ ascii_lower c1 = 111%N /\ ascii_lower c2 = 110%N /\
            ascii_lower c3 = 32%N /\ ascii_lower c4 = 110%N /\ ascii_lower c5 = 111%N /\
            ascii_lower c6 = 116%N /\ (ascii_lower c7 = 111%N \/ ascii_lower c7 = 97%N))
    as (c0 & c1 & c2 & c3 & c4 & c5 & c6 & c7 & -> & H0 & H1 & H2 & H3 & H4 & H5 & H6 & H7).
  { change (lit "non noto") with [110; 111; 110; 32; 110; 111; 116; 111]%N in Hw.
    change (lit "non nota") with [110; 111; 110; 32; 110; 111; 116; 97]%N in Hw.
    do 8 (destruct w as [|? w]; [by destruct Hw|]).
    destruct w; [|by destruct Hw].
    do 8 eexists. split; [done|]. cbn [map] in Hw.
    destruct Hw as [Hw|Hw]; injection Hw as ? ? ? ? ? ? ? ?;
      split_and!; try done; by (left + right). }
  apply ascii_lower_space in H3 as ->.
  either_case H0; either_case H1; either_case H2; either_case H4; either_case H5;
    either_case H6; (destruct H7 as [H7|H7]; either_case H7); reflexivity.
Qed.

(** *** The converters *)

Lemma separators_removed_only s :
  Forall (fun c => is_separator c = true) s -> separators_removed s = [].
Proof.
  induction 1 as [|c s Hc _ IH]; [done|].
  unfold separators_removed in *. cbn [List.filter]. by rewrite Hc.
Qed.

(** Property X3.  A token that is not empty and made of thousands
    separators and spaces only is not read as missing: [to_int] raises
    ValueError. *)
Theorem to_int_rejects_bare_separators (s : str) :
  s <> [] -> Forall (fun c => is_separator c = true) s ->
  to_int (PStr s) = Raise ValueError.
Proof.
  intros Hne Hs. rewrite (to_int_nonempty s Hne), (separators_removed_only s Hs).
  reflexivity.
Qed.

Lemma long_from_string_minus ds :
  ds <> [] -> all_digits ds ->
  long_from_string (45%N :: ds) = Some (- digits_value 0 ds)%Z.
Proof.
  intros Hne Hds. pose proof (long_from_string_digits ds Hne Hds) as Hpos.
  unfold long_from_string in *. destruct ds as [|c ds]; [done|].
  pose proof (Forall_inv Hds) as Hc. cbn beta in Hc.
  change (lstrip (45%N :: c :: ds)) with (45%N :: c :: ds).
  change (take_sign (45%N :: c :: ds)) with (true, c :: ds).
  cbn [lstrip] in Hpos. rewrite (digit_not_space c Hc), (take_sign_digit c ds Hc) in Hpos.
  match type of Hpos with
  | context [span ?f ?x] => destruct (span f x) as [run rest] eqn:Hsp
  end.
  match goal with
  | |- context [span ?f ?x] => destruct (span f x) as [run' rest'] eqn:Hsp'
  end.
  injection Hsp as -> ->.
  destruct (valid_digit_run run && bool_decide (lstrip rest = [])); [|done].
  cbv zeta in Hpos |- *. injection Hpos as Hpos. by rewrite Hpos.
Qed.


Lemma take_sign_unsigned (c : char) (s : str) :
  (c =? 45)%N = false -> (c =? 43)%N = false -> take_sign (c :: s) = (false, c :: s).
Proof. intros H1 H2. cbn [take_sign]. by rewrite H1, H2. Qed.

Lemma digit_or_point_not (c : char) :
  c_isdigit c = true \/ c = 46%N ->
  c_isspace c = false /\ (c =? 45)%N = false /\ (c =? 43)%N = false /\
  (c =? underscore)%N = false /\ (c <? 128)%N = true /\ ascii_lower c = c.
Proof.
  intros [Hc| ->]; [|done]. unfold c_isdigit in Hc.
  apply andb_prop in Hc as [H1 H2]. apply N.leb_le in H1. apply N.leb_le in H2.
  unfold c_isspace, underscore, ascii_lower. split_and!.
  - apply orb_false_intro; [apply andb_false_intro2|]; [apply N.leb_gt|apply N.eqb_neq]; lia.
  - apply N.eqb_neq; lia.
  - apply N.eqb_neq; lia.
  - apply N.eqb_neq; lia.
  - apply N.ltb_lt; lia.
  - replace (c <=? 90)%N with true by (symmetry; apply N.leb_le; lia).
    replace (65 <=? c)%N with false by (symmetry; apply N.leb_gt; lia). done.
Qed.

Lemma float_two_points ip mp fp :
  all_digits ip -> all_digits mp -> all_digits fp ->
  float (ip ++ 46%N :: mp ++ 46%N :: fp) = Raise ValueError.
Proof.
  intros Hi Hm Hf. set (t := ip ++ 46%N :: mp ++ 46%N :: fp).
  assert (Forall (fun c => c_isdigit c = true \/ c = 46%N) t) as Hall.
  { assert (forall ds, all_digits ds ->
              Forall (fun c => c_isdigit c = true \/ c = 46%N) ds) as Hd.
    { intros ds Hds. eapply Forall_impl; [exact Hds|]. by left. }
    subst t. apply Forall_app. split; [by apply Hd|]. constructor; [by right|].
    apply Forall_app. split; [by apply Hd|]. constructor; [by right|]. by apply Hd. }
  assert (exists c t', t = c :: t') as (c & t' & Ht).
  { subst t. destruct ip; by eexists _, _. }
  assert (c_isdigit c = true \/ c = 46%N) as Hc by (rewrite Ht in Hall; by inversion Hall).
  destruct (digit_or_point_not c Hc) as (Hsp & Hminus & Hplus & _).
  unfold float. rewrite transform_ascii; cycle 1.
  { apply forallb_forall. intros x Hx%list_elem_of_In.
    eapply Forall_forall in Hall; [|exact Hx]. by apply digit_or_point_not in Hall as (_&_&_&_&?&_). }
  rewrite without_underscores_none; cycle 1.
  { eapply Forall_impl; [exact Hall|]. intros x Hx.
    by apply digit_or_point_not in Hx as (_&_&_&?&_). }
  cbn [mbind option_bind]. unfold float_from_string_inner.
  assert (rstrip (lstrip t) = t) as ->.
  { rewrite Ht, (lstrip_head _ _ Hsp), <- Ht. apply rstrip_digits_or_point; [|done].
    by rewrite Ht. }
  assert (parse_decimal t = None) as ->.
  { unfold parse_decimal. rewrite Ht, (take_sign_unsigned c t' Hminus Hplus), <- Ht.
    subst t. rewrite (span_all c_isdigit ip _ Hi), span_stop by done.
    cbn [fst snd]. rewrite app_nil_r. cbn [N.eqb Pos.eqb].
    rewrite (span_all c_isdigit mp _ Hm), span_stop by done.
    cbn [fst snd]. rewrite app_nil_r.
    destruct (ip ++ mp); [done|]. done. }
  unfold parse_inf_or_nan. rewrite Ht, (take_sign_unsigned c t' Hminus Hplus), <- Ht.
  assert (map ascii_lower t = t) as ->.
  { apply map_id_on. eapply Forall_impl; [exact Hall|]. intros x Hx.
    by apply digit_or_point_not in Hx as (_&_&_&_&_&?). }
  assert (forall w : str, 46%N ∉ w -> bool_decide (t = w) = false) as Hnot.
  { intros w Hw. apply bool_decide_eq_false_2. intros <-. apply Hw.
    subst t. apply elem_of_app. right. apply elem_of_cons. by left. }
  rewrite !Hnot; [done|..]; intros Hin%list_elem_of_In; cbn in Hin;
    repeat (destruct Hin as [Hin|Hin]; [discriminate Hin|]); done.
Qed.

(** Property X5.  [to_float] does not take thousands separators: on
    digits with two separators among them, each a '.' or a ',' (as in
    "1.234,5"), it raises ValueError. *)
Theorem to_float_rejects_two_separators (ip mp fp : str) (s1 s2 : char) :
  all_digits ip -> all_digits mp -> all_digits fp ->
  s1 = 44%N \/ s1 = 46%N -> s2 = 44%N \/ s2 = 46%N ->
  to_float (PStr (ip ++ [s1] ++ mp ++ [s2] ++ fp)) = Raise ValueError.
Proof.
  intros Hi Hm Hf H1 H2. rewrite to_float_nonempty by by destruct ip.
  change (lit ",") with [44%N]. change (lit ".") with [46%N].
  assert (forall ds, all_digits ds ->
            Forall (fun x => (if (x =? 44)%N then 46%N else x) = x) ds) as Hkeep.
  { intros ds Hds. eapply Forall_impl; [exact Hds|].
    intros c Hc. cbn beta in *. rewrite (digit_not_char c 44%N Hc); [done|lia]. }
  rewrite replace_char_char, !map_app.
  destruct H1 as [-> | ->], H2 as [-> | ->]; cbn [map N.eqb Pos.eqb];
    (rewrite !map_id_on; [|by apply Hkeep..]);
    exact (f_equal (fmap PFloat) (float_two_points ip mp fp Hi Hm Hf)).
Qed.

(** Property X6.  [to_float] reads a decimal point as it reads a
    decimal comma: on "<digits>.<digits>" it returns the binary64
    nearest to that decimal number, which is what it returns on
    "<digits>,<digits>". *)
Theorem to_float_accepts_point (ip fp : str) :
  ip <> [] -> all_digits ip -> all_digits fp ->
  to_float (PStr (ip ++ lit "." ++ fp))
  = Ok (PFloat (float_of_decimal false (base10 (ip ++ fp)) (- Z.of_nat (length fp)))) /\
  to_float (PStr (ip ++ lit "." ++ fp)) = to_float (PStr (ip ++ lit "," ++ fp)).
Proof.
  intros Hne Hi Hf.
  assert (to_float (PStr (ip ++ lit "." ++ fp))
          = Ok (PFloat (float_of_decimal false (base10 (ip ++ fp))
                          (- Z.of_nat (length fp))))) as Hpoint.
  { rewrite to_float_nonempty by by destruct ip.
    rewrite replace_unchanged; cycle 1.
    - done.
    - change (lit ",") with [44%N]. change (lit "." ++ fp) with (46%N :: fp).
      assert (forall s : str, Forall (fun c => c_isdigit c = true \/ c = 46%N) s ->
                contains [44%N] s = false) as Hno.
      { induction 1 as [|c s Hc _ IH]; [done|]. cbn [contains].
        rewrite startswith_single, IH, orb_false_r.
        destruct Hc as [Hc| ->]; [|done]. rewrite N.eqb_sym.
        apply (digit_not_char c 44 Hc). lia. }
      apply Hno. apply Forall_app. split.
      + eapply Forall_impl; [exact Hi|]. by left.
      + constructor; [by right|]. eapply Forall_impl; [exact Hf|]. by left.
    - by rewrite (float_digits_point ip fp Hne Hi Hf), digits_value_0. }
  split; [done|]. rewrite Hpoint.
  rewrite to_float_nonempty by by destruct ip.
  by rewrite (comma_to_point ip fp Hi Hf), (float_digits_point ip fp Hne Hi Hf),
    digits_value_0.
Qed.

(** *** Page texts *)

(** Property X7.  [extract_text] asks the document for the page it is
    given and for no other; where the page exists it returns its text
    with every newline taken out and every other character kept, in
    order, so that the text returned holds no newline; where the
    document has no such page it raises IndexError. *)
Theorem extract_text_strips_newlines (pdf : PdfFileReader) (i : nat) :
  inspected (extract_text pdf i) = [i] /\
  (forall raw : str, pdf !! i = Some raw ->
     outcome (extract_text pdf i)
     = Ok (List.filter (fun c => negb (c =? 10)%N) raw)) /\
  (length pdf <= i -> outcome (extract_text pdf i) = Raise IndexError) /\
  (forall text : str, outcome (extract_text pdf i) = Ok text -> 10%N ∉ text).
Proof.
  rewrite extract_text_page. unfold page_text. cbn [outcome inspected].
  change (lit "") with (@nil char).
  split_and!.
  - done.
  - intros raw ->. cbn [fmap option_fmap option_map]. by rewrite replace_char_empty.
  - intros Hi. assert ((pdf !! i : option str) = None) as -> by by apply lookup_ge_None_2.
    done.
  - intros text. destruct (pdf !! i) as [raw|]; [|done].
    cbn [fmap option_fmap option_map]. rewrite replace_char_empty. intros [= <-].
    intros Hin%list_elem_of_In%filter_In. by destruct Hin as [_ Hin].
Qed.

(** *** The conversion of one row *)

Lemma traverse_first_error {A B} (f : A -> result B) l1 x l2 e :
  (forall y, y ∈ l1 -> is_ok (f y) = true) -> f x = Raise e ->
  traverse f (l1 ++ x :: l2) = Raise e.
Proof.
  intros Hok Hx. induction l1 as [|y l1 IH]; cbn [app traverse].
  - by rewrite Hx.
  - destruct (f y) as [b|e'] eqn:Hy.
    + cbn [mbind result_bind]. rewrite IH; [done|]. intros z Hz. apply Hok. set_solver.
    + specialize (Hok y). rewrite Hy in Hok. discriminate Hok. set_solver.
Qed.

(** Property X8.  [convert_values] raises ValueError when the values
    and the converters are not equally many, whatever the converters
    do.  It returns a list exactly when they are equally many and every
    converter accepts the value at its position; the list has one
    element for each value, the [k]-th being the result of the [k]-th
    converter on the [k]-th value. *)
Theorem convert_values_pointwise (values : list str) (converters : list converter) :
  (length values <> length converters ->
   convert_values values converters = Raise ValueError) /\
  (forall out, convert_values values converters = Ok out <->
     length values = length converters /\ length out = length values /\
     forall k v c, values !! k = Some v -> converters !! k = Some c ->
       exists y, out !! k = Some y /\ c v = Ok y).
Proof.
  split.
  - intros Hlen. unfold convert_values.
    destruct (Nat.eqb_spec (length values) (length converters)); done.
  - intros out. rewrite convert_values_Ok. split.
    + intros [Hlen Hall]. pose proof (Forall2_length _ _ _ Hall) as Hout.
      rewrite length_zip_with in Hout. split_and!; [done|lia|].
      intros k v c Hv Hc.
      assert (zip values converters !! k = Some (v, c)) as Hz.
      { apply lookup_zip_with_Some. by exists v, c. }
      destruct (Forall2_lookup_l _ _ _ _ _ Hall Hz) as [y [Hy Hcv]]. by exists y.
    + intros (Hlen & Hout & Hall). split; [done|].
      apply Forall2_same_length_lookup_2.
      * rewrite length_zip_with. lia.
      * intros k [v c] y Hz Hy.
        apply lookup_zip_with_Some in Hz as (v' & c' & [= <- <-] & Hv & Hc).
        destruct (Hall k v c Hv Hc) as [y' [Hy' Hcv]]. cbn [fst snd]. congruence.
Qed.

(** Property X9.  When the values and the converters are equally many
    and the converters before position [k] accept their values, while
    the one at position [k] raises [e], [convert_values] raises [e]:
    the error is that of the leftmost value that does not convert,
    whatever the converters behind it would do. *)
Theorem convert_values_first_error (values : list str) (converters : list converter)
    (k : nat) (v : str) (c : converter) (e : exn) :
  length values = length converters ->
  values !! k = Some v -> converters !! k = Some c -> c v = Raise e ->
  (forall j v' c', j < k -> values !! j = Some v' -> converters !! j = Some c' ->
     is_ok (c' v') = true) ->
  convert_values values converters = Raise e.
Proof.
  intros Hlen Hv Hc He Hbefore. unfold convert_values.
  rewrite Hlen, Nat.eqb_refl. cbn [negb].
  assert (zip values converters !! k = Some (v, c)) as Hz.
  { apply lookup_zip_with_Some. by exists v, c. }
  rewrite <- (take_drop_middle _ _ _ Hz). apply traverse_first_error; [|done].
  intros [v' c'] Hin. apply list_elem_of_lookup in Hin as [j Hj].
  pose proof (lookup_lt_Some _ _ _ Hj) as Hjk. rewrite length_take in Hjk.
  rewrite lookup_take_lt in Hj by lia.
  apply lookup_zip_with_Some in Hj as (v'' & c'' & [= <- <-] & Hv' & Hc').
  cbn [fst snd]. apply (Hbefore j); [lia|done|done].
Qed.

(** *** From the text of the page to the tokens *)

Lemma find_from_absent sub s : forall i,
  contains sub s = false -> find_from sub s i = (-1)%Z.
Proof.
  induction s as [|c s IH]; intros i; cbn [contains find_from];
    intros [Hs Hrest]%orb_false_elim; rewrite Hs; [done|by apply IH].
Qed.

Lemma startswith_app p s : startswith p (p ++ s) = true.
Proof. induction p as [|a p IH]; [done|]. cbn. by rewrite N.eqb_refl. Qed.

Lemma startswith_prefix p x y :
  length p <= length x -> startswith p (x ++ y) = startswith p x.
Proof.
  revert x. induction p as [|a p IH]; intros [|c x] Hlen; cbn in *; try done; [lia|].
  rewrite IH; [done|lia].
Qed.

Lemma contains_suffix sub a s :
  contains sub (a ++ s) = false -> startswith sub s = false.
Proof.
  induction a as [|c a IH]; cbn [app contains].
  - destruct s; cbn [contains]; by intros [? _]%orb_false_elim.
  - by intros [_ ?]%orb_false_elim; apply IH.
Qed.

Lemma find_from_first sub pre rest : forall i,
  (forall a b, pre = a ++ b -> b <> [] -> startswith sub (b ++ sub ++ rest) = false) ->
  find_from sub (pre ++ sub ++ rest) i = (i + Z.of_nat (length pre))%Z.
Proof.
  induction pre as [|c pre IH]; intros i Hfirst.
  - cbn [app length]. destruct (sub ++ rest) eqn:E; cbn [find_from]; rewrite <- E;
      rewrite startswith_app; lia.
  - cbn [app find_from].
    assert (startswith sub (c :: pre ++ sub ++ rest) = false) as ->
      by by apply (Hfirst [] (c :: pre)).
    rewrite IH; [cbn [length]; lia|].
    intros a b -> Hb. by apply (Hfirst (c :: a) b).
Qed.

Lemma split_from_cons sep s : forall k, exists tok toks, split_from sep k s = tok :: toks.
Proof.
  induction s as [|c s IH]; intros k; cbn [split_from]; [by eexists _, _|].
  destruct k as [|k]; [|apply IH].
  destruct (startswith sep (c :: s)); [by eexists _, _|].
  destruct (IH 0) as (tok & toks & ->). by eexists _, _.
Qed.

Lemma split_from_skip_char sep c s :
  startswith sep (c :: s) = false ->
  exists tok toks, split_from sep 0 s = tok :: toks /\
                   split_from sep 0 (c :: s) = (c :: tok) :: toks.
Proof.
  intros Hs. destruct (split_from_cons sep s 0) as (tok & toks & Heq).
  exists tok, toks. split; [done|]. cbn [split_from]. by rewrite Hs, Heq.
Qed.

(** Property X10.  When the text of the page, after the labels of the
    unknown age have been replaced, does not contain "0-9", [find]
    returns -1 and the slice keeps the last character of the page only:
    there are at most two tokens, and [build_rows] raises ValueError. *)
Theorem build_rows_without_first_bracket (date : pyval) (page : str) :
  contains (lit "0-9") (sub unknown_age_matcher (lit "unknown") page) = false ->
  (exists tokens, tokenize page = Ok tokens /\ length tokens <= 2) /\
  build_rows date page = Raise ValueError.
Proof.
  intros Habsent.
  assert (exists tokens, tokenize page = Ok tokens /\ length tokens <= 2)
    as (tokens & Htok & Hlen).
  { unfold tokenize, find. rewrite (find_from_absent _ _ 0 Habsent).
    set (text := sub unknown_age_matcher (lit "unknown") page).
    assert (length (slice_from (-1) text) <= 1) as Hlast.
    { unfold slice_from. cbn [Z.ltb Z.compare]. rewrite length_drop. lia. }
    change (lit ", ") with [44%N; 32%N]. change (lit ",") with [44%N].
    change (lit " ") with [32%N]. cbn [replace split].
    destruct (slice_from (-1) text) as [|c [|? ?]]; [| |cbn in Hlast; lia].
    - eexists. split; [reflexivity|]. cbn. lia.
    - cbn [replace_from startswith]. rewrite andb_false_r.
      cbn [split_from startswith length Nat.sub]. rewrite andb_true_r.
      destruct (32 =? c)%N; eexists; (split; [reflexivity|cbn; lia]). }
  split; [by exists tokens|].
  destruct (build_rows date page) as [table|e] eqn:Hrows.
  - exfalso. unfold build_rows in Hrows. rewrite Htok in Hrows.
    cbn [mbind result_bind] in Hrows.
    destruct (rows_of_tokens date tokens) as [rows|e] eqn:Hr; [|done].
    apply rows_of_tokens_Ok in Hr as [? _]. lia.
  - by rewrite (build_rows_raises date page e Hrows).
Qed.

(** Property X11.  The text in front of the first "0-9" has no
    influence on the tokens: when the text of the page, after the labels
    of the unknown age have been replaced, is [pre ++ "0-9" ++ rest]
    with no earlier occurrence of "0-9", the tokens are those of
    ["0-9" ++ rest], and the first token begins with "0-9". *)
Theorem tokenize_starts_at_first_bracket (page pre rest : str) :
  sub unknown_age_matcher (lit "unknown") page = pre ++ lit "0-9" ++ rest ->
  contains (lit "0-9") (pre ++ lit "0-") = false ->
  tokenize page = split (lit " ") (replace (lit ", ") (lit ",") (lit "0-9" ++ rest)) /\
  exists tok toks, tokenize page = Ok ((lit "0-9" ++ tok) :: toks).
Proof.
  intros Htext Hfirst.
  assert (tokenize page
          = split (lit " ") (replace (lit ", ") (lit ",") (lit "0-9" ++ rest))) as Htok.
  { unfold tokenize, find. rewrite Htext, find_from_first; cycle 1.
    { intros a b -> Hb.
      replace (b ++ lit "0-9" ++ rest) with ((b ++ lit "0-") ++ lit "9" ++ rest)
        by by rewrite <- !app_assoc.
      rewrite startswith_prefix; cycle 1.
      { rewrite length_app. destruct b; [done|]. cbn. lia. }
      apply (contains_suffix _ a). by rewrite <- app_assoc in Hfirst. }
    rewrite Z.add_0_l. unfold slice_from.
    destruct (Z.of_nat (length pre) <? 0)%Z eqn:Hneg; [apply Z.ltb_lt in Hneg; lia|].
    by rewrite Nat2Z.id, drop_app_length. }
  split; [done|]. rewrite Htok.
  change (lit "0-9" ++ rest) with (48%N :: 45%N :: 57%N :: rest).
  change (lit ", ") with [44%N; 32%N]. change (lit ",") with [44%N].
  change (lit " ") with [32%N]. unfold replace, split.
  rewrite !replace_from_skip_char by done.
  set (tail := replace_from _ _ 0 rest).
  destruct (split_from_skip_char [32%N] 57%N tail eq_refl) as (t1 & l1 & _ & H1).
  destruct (split_from_skip_char [32%N] 45%N (57%N :: tail) eq_refl) as (t2 & l2 & H2' & H2).
  destruct (split_from_skip_char [32%N] 48%N (45%N :: 57%N :: tail) eq_refl)
    as (t3 & l3 & H3' & H3).
  pose proof (eq_trans (eq_sym H2) H3') as E3. injection E3 as <- <-.
  pose proof (eq_trans (eq_sym H1) H2') as E2. injection E2 as <- <-.
  exists t1, l1. f_equal. exact H3.
Qed.

(** *** The rows built from the tokens *)

(** The cells of the row number [i]: the date, then the tokens
    [16 * i], ..., [16 * i + 15], each under the converter of its
    column. *)
Lemma row_of_tokens_cells date tokens i row :
  row_of_tokens date tokens i = Ok row ->
  row !! 0 = Some date /\
  forall k c, COLUMN_CONVERTERS !! k = Some c ->
    exists t y, tokens !! (i * 16 + k) = Some t /\ c t = Ok y /\ row !! S k = Some y.
Proof.
  unfold row_of_tokens.
  destruct (convert_values _ _) as [values|e'] eqn:Hv; cbn [mbind result_bind]; [|done].
  intros [= <-]. split; [done|]. intros k c Hc.
  apply convert_values_Ok in Hv as [Hlen Hall].
  change (length COLUMN_CONVERTERS) with 16 in Hlen.
  assert (k < 16) as Hk by exact (lookup_lt_Some _ _ _ Hc).
  destruct (lookup_lt_is_Some_2 (take 16 (drop (i * 16) tokens)) k) as [t Ht]; [lia|].
  assert (zip (take 16 (drop (i * 16) tokens)) COLUMN_CONVERTERS !! k = Some (t, c)) as Hz.
  { apply lookup_zip_with_Some. by exists t, c. }
  destruct (Forall2_lookup_l _ _ _ _ _ Hall Hz) as [y [Hy Hcy]].
  rewrite row_token_lookup in Ht by done. by exists t, y.
Qed.

Lemma frame_column (data : list (list pyval)) cols col j :
  column_position col cols = Some j ->
  getitem (Frame cols (imap (fun i r => (Z.of_nat i, r)) data)) col
  = Ok ((fun r => default missing (r !! j)) <$> data).
Proof.
  intros Hj. unfold getitem. cbn [columns rows]. rewrite Hj. f_equal.
  apply list_eq. intros i.
  change (map ?f ?l) with (f <$> l).
  rewrite !list_lookup_fmap, list_lookup_imap. by destruct (data !! i).
Qed.

(** The rows [build_rows] puts in the frame, before [normalize_table]. *)
Lemma build_rows_rows date page tokens table :
  build_rows date page = Ok table -> tokenize page = Ok tokens ->
  exists data,
    table = Frame ("date" :: COLUMNS) (relabelled data) /\
    length data = 11 /\ Forall (fun r => length r = 17) data /\
    forall i, i < 11 ->
      exists row, data !! i = Some row /\ row_of_tokens date tokens i = Ok row.
Proof.
  intros Htable Htok.
  destruct (rows_of_tokens date tokens) as [data|e] eqn:Hrows; cycle 1.
  { unfold build_rows in Htable. rewrite Htok in Htable.
    cbn [mbind result_bind] in Htable. by rewrite Hrows in Htable. }
  rewrite (build_rows_of_rows date page tokens data Htok Hrows) in Htable.
  injection Htable as <-.
  pose proof (rows_of_tokens_Ok date tokens data Hrows) as (_ & _ & Hlen & Hw).
  exists data. split_and!; [by apply normalize_table_frame|done|done|].
  intros i Hi. rewrite rows_of_tokens_rows in Hrows. apply traverse_Ok in Hrows.
  assert (seq 0 11 !! i = Some i) as Hseq by by apply lookup_seq_lt.
  destruct (Forall2_lookup_l _ _ _ _ _ Hrows Hseq) as [row [Hrow Hr]]. by exists row.
Qed.

(** Property X12.  Every row of a table [build_rows] returns carries
    the date it was given: the column "date" holds that date eleven
    times. *)
Theorem build_rows_date_column (date : pyval) (page : str) (table : DataFrame) :
  build_rows date page = Ok table ->
  getitem table "date" = Ok (replicate 11 date).
Proof.
  intros Htable. destruct (tokenize_total page) as [tokens Htok].
  destruct (build_rows_rows date page tokens table Htable Htok)
    as (data & -> & Hlen & Hw & Hrows).
  rewrite getitem_relabelled_other by done.
  rewrite (frame_column data _ "date" 0) by reflexivity. f_equal.
  apply list_eq_same_length with 11; [by rewrite ?length_fmap, ?length_replicate..|].
  intros i x y Hi Hx Hy. apply lookup_replicate in Hy as [-> _].
  destruct (Hrows i Hi) as (row & Hrow & Hr).
  apply row_of_tokens_cells in Hr as [Hdate _].
  rewrite list_lookup_fmap, Hrow in Hx. cbn in Hx. rewrite Hdate in Hx.
  by injection Hx as <-.
Qed.

Lemma column_position_COLUMNS k col :
  1 <= k -> COLUMNS !! k = Some col ->
  column_position col ("date" :: COLUMNS) = Some (S k) /\ col <> "age_group"%string.
Proof.
  intros Hk Hcol. destruct k as [|k]; [lia|]. clear Hk.
  do 15 (destruct k as [|k]; [injection Hcol as <-; by split|]).
  done.
Qed.

Lemma converter_of_count k c :
  1 <= k -> COLUMN_CONVERTERS !! k = Some c ->
  c = on_token to_int \/ c = on_token to_float.
Proof.
  intros Hk Hc. rewrite converters_list in Hc. destruct k as [|k]; [lia|]. clear Hk.
  do 15 (destruct k as [|k]; [injection Hc as <-; by (left + right)|]).
  done.
Qed.


(** Property X14.  In a table [build_rows] returns, the column
    "age_group" has eleven cells: for the rows 0 to 8 the token that
    begins the row, number [16 * i], as it is; for the rows 9 and 10 the
    labels ">=90" and "unknown", whatever the tokens 144 and 160
    are. *)
Theorem build_rows_age_groups (date : pyval) (page : str) (tokens : list str)
    (table : DataFrame) :
  build_rows date page = Ok table -> tokenize page = Ok tokens ->
  exists cells,
    getitem table "age_group" = Ok cells /\ length cells = 11 /\
    (forall i, i < 9 ->
       exists t, tokens !! (i * 16) = Some t /\ cells !! i = Some (PStr t)) /\
    cells !! 9 = Some (PStr (lit ">=90")) /\
    cells !! 10 = Some (PStr (lit "unknown")).
Proof.
  intros Htable Htok.
  destruct (build_rows_rows date page tokens table Htable Htok)
    as (data & -> & Hlen & Hw & Hrows).
  rewrite (getitem_relabelled_label data Hlen Hw).
  rewrite (frame_column data _ "age_group" 1) by reflexivity.
  eexists. split; [done|].
  split; [by rewrite !length_insert, length_fmap|]. split_and!.
  - intros i Hi. destruct (Hrows i) as (row & Hrow & Hr); [lia|].
    apply row_of_tokens_cells in Hr as [_ Hcells].
    destruct (Hcells 0 str_) as (t & y & Ht & Hy & Hcell); [by rewrite converters_list|].
    injection Hy as <-. rewrite Nat.add_0_r in Ht. exists t. split; [done|].
    rewrite !list_lookup_insert_ne by lia.
    by rewrite list_lookup_fmap, Hrow; cbn; rewrite Hcell.
  - apply list_lookup_insert_eq. rewrite length_insert, length_fmap. lia.
  - rewrite list_lookup_insert_ne by lia. apply list_lookup_insert_eq.
    rewrite length_fmap. lia.
Qed.

(** Property X15.  On a table of eleven rows with the columns of
    [extract], [normalize_table] is idempotent: normalizing a normalized
    table changes nothing. *)
Theorem normalize_table_idempotent (data : list (list pyval)) (table : DataFrame) :
  DataFrame_new data ("date" :: COLUMNS) = Ok table -> length data = 11 ->
  normalize_table (normalize_table table) = normalize_table table.
Proof.
  intros Hnew Hlen. apply DataFrame_new_inv in Hnew as [-> Hw].
  rewrite (normalize_table_frame data Hlen Hw).
  do 11 (destruct data as [|? data]; [done|]).
  destruct data; [clear Hlen Hw|done].
  match goal with
  | |- normalize_table (Frame ?c (relabelled ?d)) = _ =>
      change (normalize_table (Frame c (relabelled d)))
        with (Frame c (relabelled (map snd (relabelled d))))
  end.
  unfold relabelled. cbn [imap map snd Nat.eqb compose].
  by rewrite !list_insert_insert_eq.
Qed.

(** *** The check against the totals *)

(** One turn of the loop of [sanity_check_with_totals]: the columns that
    agree with their totals are passed over. *)
Lemma sanity_check_loop_agree table totals before rest :
  (forall c, c ∈ before ->
     exists a e, column_sum table c = Ok a /\ totals !! c = Some e /\
                 py_ne a e = false) ->
  sanity_check_loop table totals (before ++ rest)
  = sanity_check_loop table totals rest.
Proof.
  induction before as [|c before IH]; intros Hagree; [done|].
  destruct (Hagree c) as (a & e & Ha & He & Hne); [set_solver|].
  cbn [app sanity_check_loop]. unfold column_sum in Ha. rewrite Ha, He.
  cbn [mbind result_bind]. rewrite Hne. apply IH.
  intros c' Hc'. apply Hagree. set_solver.
Qed.

(** Property X16.  [sanity_check_with_totals] reports the first column
    that disagrees, in the order male_cases, male_deaths, female_cases,
    female_deaths, cases, deaths: when the columns before [col] agree
    with their totals and the sum of [col] differs from its total, the
    error names [col], its sum and its total, whatever the columns
    behind it hold. *)
Theorem sanity_check_reports_first_mismatch table totals before col after a e :
  validated_columns = before ++ col :: after ->
  (forall c, c ∈ before ->
     exists a' e', column_sum table c = Ok a' /\ totals !! c = Some e' /\
                   py_ne a' e' = false) ->
  column_sum table col = Ok a -> totals !! col = Some e -> py_ne a e = true ->
  (sanity_check_with_totals table totals).1
  = Raise (TableExtractionError (inconsistent_sum col a e)).
Proof.
  intros Hcols Hagree Ha He Hne. unfold sanity_check_with_totals. cbn [fst].
  fold validated_columns. rewrite Hcols.
  rewrite (sanity_check_loop_agree table totals before (col :: after) Hagree).
  cbn [sanity_check_loop]. unfold column_sum in Ha. rewrite Ha, He.
  cbn [mbind result_bind]. by rewrite Hne.
Qed.

(** Property X17.  When the columns before [col] agree with their
    totals, and either the table has no column [col], or its sum can be
    taken and the totals have no entry for it,
    [sanity_check_with_totals] raises KeyError for [col]. *)
Theorem sanity_check_missing_key table totals before col after :
  validated_columns = before ++ col :: after ->
  (forall c, c ∈ before ->
     exists a' e', column_sum table c = Ok a' /\ totals !! c = Some e' /\
                   py_ne a' e' = false) ->
  (col ∉ columns table \/ (is_ok (column_sum table col) = true /\ totals !! col = None)) ->
  (sanity_check_with_totals table totals).1 = Raise (KeyError col).
Proof.
  intros Hcols Hagree Hmiss. unfold sanity_check_with_totals. cbn [fst].
  fold validated_columns. rewrite Hcols.
  rewrite (sanity_check_loop_agree table totals before (col :: after) Hagree).
  cbn [sanity_check_loop]. destruct Hmiss as [Hcol|[Hsum Hkey]].
  - assert (getitem table col = Raise (KeyError col)) as ->; [|done].
    unfold getitem. destruct (column_position col (columns table)) as [j|] eqn:Hj; [|done].
    apply column_position_Some in Hj. exfalso. apply Hcol.
    by eapply list_elem_of_lookup_2.
  - unfold column_sum in Hsum. destruct (getitem table col ≫= Series_sum); [|done].
    by rewrite Hkey.
Qed.

(** Property X18.  The outcome of [sanity_check_with_totals] depends on
    the six summed columns of the table and on the six entries of the
    totals under their names only: two tables and two sets of totals
    that agree on these give the same outcome. *)
Theorem sanity_check_reads_summed_columns_only table table' totals totals' :
  (forall col, col ∈ validated_columns ->
     getitem table col = getitem table' col /\ totals !! col = totals' !! col) ->
  (sanity_check_with_totals table totals).1
  = (sanity_check_with_totals table' totals').1.
Proof.
  unfold sanity_check_with_totals. cbn [fst]. fold validated_columns.
  generalize validated_columns as cols.
  induction cols as [|col cols IH]; intros Hsame; [done|].
  cbn [sanity_check_loop]. destruct (Hsame col) as [-> ->]; [apply elem_of_cons; by left|].
  rewrite IH; [done|]. intros c Hc. apply Hsame. apply elem_of_cons. by right.
Qed.

(** *** The whole extraction *)

(** The pages [find_table_page] asks for, by its outcome. *)
Lemma find_table_page_trace pdf :
  (exists text i, 1 <= i < length pdf /\
     find_table_page pdf = Traced (Ok (text, i)) (seq 1 i)) \/
  find_table_page pdf
  = Traced (Raise (TableExtractionError table_not_found)) (seq 1 (length pdf - 1)).
Proof.
  unfold find_table_page, getNumPages.
  destruct (find_table_page_loop_spec pdf (length pdf - 1) 1)
    as [(j & text & Hj & _ & _ & _ & ->)|[_ ->]]; [lia| |].
  - left. exists text, j. split; [lia|]. do 2 f_equal. lia.
  - by right.
Qed.

Lemma extract_unfold pdf :
  extract pdf
  = match page_text pdf 0 with
    | None => Traced (Raise IndexError) [0]
    | Some text =>
        match extract_datetime text with
        | Raise e => Traced (Raise e) [0]
        | Ok date =>
            match outcome (find_table_page pdf) with
            | Raise e => Traced (Raise e) (0 :: inspected (find_table_page pdf))
            | Ok (page, _) =>
                Traced (build_rows (PDatetime date) page)
                       (0 :: inspected (find_table_page pdf))
            end
        end
    end.
Proof.
  unfold extract. rewrite extract_text_page.
  destruct (page_text pdf 0) as [text|]; [|done].
  unfold mbind at 1, traced_bind at 1. cbn [outcome inspected].
  destruct (extract_datetime text) as [date|e]; [|done].
  unfold mbind, traced_bind, lift. cbn [outcome inspected].
  destruct (outcome (find_table_page pdf)) as [[page i]|e]; cbn [outcome inspected].
  - by rewrite !app_nil_r.
  - done.
Qed.

(** Property X19.  [extract] reads the pages of the document in order
    from page 0 and none twice: the pages it has asked for are
    0, ..., k - 1 for some k between 1 and the number of pages (page 0
    is asked for even when the document is empty), and k is at least 2
    when it returns a table.  On a document without pages it raises
    IndexError. *)
Theorem extract_reads_pages_in_order (pdf : PdfFileReader) :
  (exists k, inspected (extract pdf) = seq 0 k /\
             1 <= k <= Nat.max 1 (length pdf) /\
             (is_ok (outcome (extract pdf)) = true -> 2 <= k)) /\
  (pdf = [] -> outcome (extract pdf) = Raise IndexError).
Proof.
  rewrite extract_unfold. split; cycle 1.
  { by intros ->. }
  destruct (page_text pdf 0) as [text|] eqn:Htext.
  2: { exists 1. cbn. split_and!; [done|lia|lia|done]. }
  destruct (extract_datetime text) as [date|e].
  2: { exists 1. cbn. split_and!; [done|lia|lia|done]. }
  destruct (find_table_page_trace pdf) as [(page & i & Hi & ->)| ->];
    cbn [outcome inspected].
  - exists (S i). split_and!; [done|lia|lia|lia].
  - exists (S (length pdf - 1)). split_and!; [done|lia|lia|done].
Qed.

(** Property X20.  Where page 0 exists and its text yields the date of
    the report, [extract] is [build_rows] on that date and the text of
    the page [find_table_page] returns, the pages 0 to that page having
    been read; and when [find_table_page] fails, it is with the "table
    not found" error, which [extract] raises after it has read every
    page. *)
Theorem extract_builds_rows_of_table_page (pdf : PdfFileReader) (text : str)
    (date : datetime) :
  page_text pdf 0 = Some text -> extract_datetime text = Ok date ->
  (forall page i, outcome (find_table_page pdf) = Ok (page, i) ->
     extract pdf = Traced (build_rows (PDatetime date) page) (seq 0 (S i))) /\
  (forall e, outcome (find_table_page pdf) = Raise e ->
     e = TableExtractionError table_not_found /\
     extract pdf = Traced (Raise e) (seq 0 (length pdf))).
Proof.
  intros Htext Hdate. rewrite extract_unfold, Htext, Hdate.
  assert (0 < length pdf) as Hlen.
  { unfold page_text in Htext. apply fmap_Some in Htext as [raw [Hraw _]].
    by apply lookup_lt_Some in Hraw. }
  destruct (find_table_page_trace pdf) as [(page & i & Hi & ->)| ->];
    cbn [outcome inspected]; split.
  - by intros page' i' [= <- <-].
  - done.
  - done.
  - intros e [= <-]. split; [done|]. f_equal.
    replace (length pdf) with (S (length pdf - 1)) at 2 by lia. done.
Qed.


(** Property X22.  The errors of [extract]: IndexError on a document
    without pages, the error of [extract_datetime] on the text of page
    0, the "table not found" error, or ValueError from the rows; no
    other. *)
Theorem extract_raises (pdf : PdfFileReader) (e : exn) :
  outcome (extract pdf) = Raise e ->
  (pdf = [] /\ e = IndexError) \/
  (exists text, page_text pdf 0 = Some text /\ extract_datetime text = Raise e) \/
  e = TableExtractionError table_not_found \/
  e = ValueError.
Proof.
  rewrite extract_unfold.
  destruct (page_text pdf 0) as [text|] eqn:Htext; cycle 1.
  { intros [= <-]. left. split; [|done]. unfold page_text in Htext.
    apply fmap_None in Htext. by destruct pdf. }
  destruct (extract_datetime text) as [date|e'] eqn:Hdate; cycle 1.
  { intros [= <-]. right. left. by exists text. }
  destruct (find_table_page_trace pdf) as [(page & i & _ & ->)| ->];
    cbn [outcome inspected].
  - intros Hrows%build_rows_raises. by do 3 right.
  - intros [= <-]. by right; right; left.
Qed.


End further_properties.

(** ** The further properties on the sample documents *)

Lemma sample_tokens_read :
  tokenize (U := ascii_only) sample_page = Ok sample_tokens.
Proof. vm_compute. reflexivity. Qed.

Lemma male_cases_agree c :
  c ∈ ["male_cases"%string] ->
  forall totals : gmap string pyval, totals !! "male_cases" = Some (PInt 400) ->
  exists a e, column_sum sample_table c = Ok a /\ totals !! c = Some e /\
              py_ne a e = false.
Proof.
  intros Hc totals Htotal. apply list_elem_of_In in Hc. destruct Hc as [<-|[]].
  exists (PInt 400), (PInt 400). split; [by vm_compute|]. split; [exact Htotal|reflexivity].
Qed.

(** X1 at "25:" and at "60". *)
Lemma clock_patterns_witness :
  cat (named "hour" (hour_pattern (U := ascii_only)))
      (text (U := ascii_only) true (lit ":")) ∅ (lit "25:00")
  = [(<["hour" := lit "25"]> ∅, lit "25:", lit "00")] /\
  named "minute" (minute_pattern (U := ascii_only)) ∅ (lit "60") = [].
Proof.
  split.
  - exact (proj1 (clock_patterns_ranges (U := ascii_only) 50%N 53%N ∅ (lit "00")
                    eq_refl eq_refl)).
  - exact (proj2 (clock_patterns_ranges (U := ascii_only) 54%N 48%N ∅ [] eq_refl eq_refl)).
Defined.

(** X2 at "NON NOTO". *)
Lemma unknown_age_label_witness :
  map ascii_lower (lit "NON NOTO") = lit "non noto" /\
  sub (unknown_age_matcher (U := ascii_only)) (lit "unknown") (lit "NON NOTO" ++ lit " 0 0,0")
  = lit "unknown 0 0,0".
Proof.
  split; [reflexivity|].
  rewrite (unknown_age_label_is_one_token (U := ascii_only) (lit "NON NOTO") (lit " 0 0,0")
             (or_introl eq_refl)).
  reflexivity.
Defined.

(** X3 at ". .". *)
Lemma to_int_bare_separators_witness :
  lit ". ." <> [] /\ to_int (U := ascii_only) (PStr (lit ". .")) = Raise ValueError.
Proof.
  split; [discriminate|].
  apply (to_int_rejects_bare_separators (U := ascii_only)); [discriminate|].
  repeat constructor.
Defined.


(** X5 at "1.234,5". *)
Lemma to_float_two_separators_witness :
  to_float (U := ascii_only) (PStr (lit "1.234,5")) = Raise ValueError.
Proof.
  apply (to_float_rejects_two_separators (U := ascii_only)
           (lit "1") (lit "234") (lit "5") 46%N 44%N).
  - repeat constructor.
  - repeat constructor.
  - repeat constructor.
  - by right.
  - by left.
Defined.

(** X6 at "12.5". *)
Lemma to_float_point_witness :
  lit "12" <> [] /\
  to_float (U := ascii_only) (PStr (lit "12.5"))
  = to_float (U := ascii_only) (PStr (lit "12,5")).
Proof.
  split; [discriminate|].
  apply (to_float_accepts_point (U := ascii_only) (lit "12") (lit "5")).
  - discriminate.
  - repeat constructor.
  - repeat constructor.
Defined.

(** X7 on a page of two lines. *)
Lemma extract_text_witness :
  [lit "Pagina" ++ [10%N] ++ lit "uno"] !! 0 = Some (lit "Pagina" ++ [10%N] ++ lit "uno") /\
  outcome (extract_text [lit "Pagina" ++ [10%N] ++ lit "uno"] 0) = Ok (lit "Paginauno").
Proof.
  split; [reflexivity|].
  destruct (extract_text_strips_newlines [lit "Pagina" ++ [10%N] ++ lit "uno"] 0)
    as (_ & H & _).
  exact (H _ eq_refl).
Defined.

(** X8 on a label and a count. *)
Lemma convert_values_witness :
  convert_values [lit "0-9"; lit "1.234"] [str_; on_token (to_int (U := ascii_only))]
  = Ok [PStr (lit "0-9"); PInt 1234] /\
  exists y, [PStr (lit "0-9"); PInt 1234] !! 1 = Some y /\
            on_token (to_int (U := ascii_only)) (lit "1.234") = Ok y.
Proof.
  split; [reflexivity|].
  destruct (convert_values_pointwise
              [lit "0-9"; lit "1.234"] [str_; on_token (to_int (U := ascii_only))])
    as [_ H].
  destruct (proj1 (H [PStr (lit "0-9"); PInt 1234]) eq_refl) as (_ & _ & Hk).
  exact (Hk 1 (lit "1.234") (on_token (to_int (U := ascii_only))) eq_refl eq_refl).
Defined.

(** X9: of two converters that fail, the first decides. *)
Lemma convert_values_first_error_witness :
  convert_values [lit "a"; lit "b"; lit "c"]
    [str_; (fun _ => Raise TypeError); (fun _ => Raise IndexError)]
  = Raise TypeError.
Proof.
  apply (convert_values_first_error _ _ 1 (lit "b") (fun _ => Raise TypeError) TypeError).
  - reflexivity.
  - reflexivity.
  - reflexivity.
  - reflexivity.
  - intros j v' c' Hj. destruct j as [|j]; [|lia]. by intros [= <-] [= <-].
Defined.

(** X10 on the cover page, which has no "0-9". *)
Lemma build_rows_cover_page_witness :
  contains (lit "0-9")
    (sub (unknown_age_matcher (U := ascii_only)) (lit "unknown") cover_page) = false /\
  build_rows (U := ascii_only) (PDatetime sample_date) cover_page = Raise ValueError.
Proof.
  split; [by vm_compute|].
  apply (build_rows_without_first_bracket (U := ascii_only)). by vm_compute.
Defined.

(** X11 on a page of one row. *)
Lemma tokenize_header_witness :
  sub (unknown_age_matcher (U := ascii_only)) (lit "unknown") (lit "Totale 0-9 1, 5 x")
  = lit "Totale " ++ lit "0-9" ++ lit " 1, 5 x" /\
  contains (lit "0-9") (lit "Totale " ++ lit "0-") = false /\
  tokenize (U := ascii_only) (lit "Totale 0-9 1, 5 x")
  = Ok [lit "0-9"; lit "1,5"; lit "x"].
Proof.
  split; [by vm_compute|]. split; [by vm_compute|].
  destruct (tokenize_starts_at_first_bracket (U := ascii_only)
              (lit "Totale 0-9 1, 5 x") (lit "Totale ") (lit " 1, 5 x")) as [H _].
  - by vm_compute.
  - by vm_compute.
  - rewrite H. reflexivity.
Defined.

(** X12 on the sample page. *)
Lemma build_rows_date_witness :
  build_rows (U := ascii_only) (PDatetime sample_date) sample_page = Ok sample_table /\
  getitem sample_table "date" = Ok (replicate 11 (PDatetime sample_date)).
Proof.
  split; [exact sample_table_built|].
  exact (build_rows_date_column (U := ascii_only) _ _ _ sample_table_built).
Defined.


(** X14 on the sample page. *)
Lemma build_rows_age_groups_witness :
  build_rows (U := ascii_only) (PDatetime sample_date) sample_page = Ok sample_table /\
  tokenize (U := ascii_only) sample_page = Ok sample_tokens /\
  exists cells,
    getitem sample_table "age_group" = Ok cells /\
    cells !! 9 = Some (PStr (lit ">=90")) /\
    cells !! 10 = Some (PStr (lit "unknown")).
Proof.
  split; [exact sample_table_built|]. split; [exact sample_tokens_read|].
  destruct (build_rows_age_groups (U := ascii_only) (PDatetime sample_date) sample_page
              sample_tokens sample_table sample_table_built sample_tokens_read)
    as (cells & Hcells & _ & _ & H9 & H10).
  exists cells. split; [exact Hcells|]. split; [exact H9|exact H10].
Defined.

(** X15 on the sample rows. *)
Lemma normalize_table_idempotent_witness :
  DataFrame_new sample_rows ("date" :: COLUMNS) = Ok raw_table /\
  length sample_rows = 11 /\
  normalize_table (normalize_table raw_table) = normalize_table raw_table.
Proof.
  destruct sample_rows_frame as [Hnew Hlen]. split; [exact Hnew|]. split; [exact Hlen|].
  exact (normalize_table_idempotent sample_rows raw_table Hnew Hlen).
Defined.

(** X16: the male deaths and the cases are both wrong; the male deaths
    come first. *)
Lemma sanity_check_first_mismatch_witness :
  column_sum sample_table "male_deaths" = Ok (PInt 40) /\
  two_wrong_totals !! "male_deaths" = Some (PInt 0) /\
  two_wrong_totals !! "cases" = Some (PInt 999) /\
  (sanity_check_with_totals sample_table two_wrong_totals).1
  = Raise (TableExtractionError (inconsistent_sum "male_deaths" (PInt 40) (PInt 0))).
Proof.
  split; [by vm_compute|]. split; [by vm_compute|]. split; [by vm_compute|].
  apply (sanity_check_reports_first_mismatch sample_table two_wrong_totals
           ["male_cases"%string] "male_deaths"
           ["female_cases"; "female_deaths"; "cases"; "deaths"]%string).
  - reflexivity.
  - intros c Hc. apply (male_cases_agree c Hc). by vm_compute.
  - by vm_compute.
  - by vm_compute.
  - reflexivity.
Defined.

(** X17: the totals lack the male deaths. *)
Lemma sanity_check_missing_key_witness :
  incomplete_totals !! "male_deaths" = None /\
  (sanity_check_with_totals sample_table incomplete_totals).1
  = Raise (KeyError "male_deaths").
Proof.
  split; [by vm_compute|].
  apply (sanity_check_missing_key sample_table incomplete_totals
           ["male_cases"%string] "male_deaths"
           ["female_cases"; "female_deaths"; "cases"; "deaths"]%string).
  - reflexivity.
  - intros c Hc. apply (male_cases_agree c Hc). by vm_compute.
  - right. split; by vm_compute.
Defined.

(** X18: the table before and after [normalize_table], and totals with
    one more entry. *)
Lemma sanity_check_frame_witness :
  raw_table <> sample_table /\
  (sanity_check_with_totals raw_table (<["date" := PInt 0]> sample_totals)).1
  = (sanity_check_with_totals sample_table sample_totals).1.
Proof.
  split; [by vm_compute|].
  apply (sanity_check_reads_summed_columns_only raw_table sample_table
           (<["date" := PInt 0]> sample_totals) sample_totals).
  intros col Hcol. apply list_elem_of_In in Hcol. cbn in Hcol.
  destruct Hcol as [<-|[<-|[<-|[<-|[<-|[<-|[]]]]]]]; split; by vm_compute.
Defined.

(** X19 on a document without pages. *)
Lemma extract_empty_witness :
  outcome (extract (U := ascii_only) (C := sample_common (U := ascii_only)) [])
  = Raise IndexError.
Proof.
  exact (proj2 (extract_reads_pages_in_order (U := ascii_only)
                  (C := sample_common (U := ascii_only)) []) eq_refl).
Defined.

(** X20 on the sample report. *)
Lemma extract_builds_rows_witness :
  page_text sample_pdf 0 = Some cover_page /\
  extract_datetime (U := ascii_only) (C := sample_common (U := ascii_only)) cover_page
  = Ok sample_date /\
  outcome (find_table_page (U := ascii_only) sample_pdf) = Ok (sample_page, 2) /\
  extract (U := ascii_only) (C := sample_common (U := ascii_only)) sample_pdf
  = Traced (build_rows (U := ascii_only) (PDatetime sample_date) sample_page) [0; 1; 2].
Proof.
  assert (page_text sample_pdf 0 = Some cover_page) as Hpage by (by vm_compute).
  assert (extract_datetime (U := ascii_only) (C := sample_common (U := ascii_only))
            cover_page = Ok sample_date) as Hdate by (by vm_compute).
  assert (outcome (find_table_page (U := ascii_only) sample_pdf) = Ok (sample_page, 2))
    as Hfind by (by vm_compute).
  split; [exact Hpage|]. split; [exact Hdate|]. split; [exact Hfind|].
  destruct (extract_builds_rows_of_table_page (U := ascii_only)
              (C := sample_common (U := ascii_only)) sample_pdf cover_page sample_date
              Hpage Hdate) as [H _].
  exact (H sample_page 2 Hfind).
Defined.


(** X22 on a report of its cover page alone. *)
Lemma extract_raises_witness :
  outcome (extract (U := ascii_only) (C := sample_common (U := ascii_only)) [cover_page])
  = Raise (TableExtractionError table_not_found) /\
  (([cover_page] = [] /\ TableExtractionError table_not_found = IndexError) \/
   (exists text, page_text [cover_page] 0 = Some text /\
      extract_datetime (U := ascii_only) (C := sample_common (U := ascii_only)) text
      = Raise (TableExtractionError table_not_found)) \/
   TableExtractionError table_not_found = TableExtractionError table_not_found \/
   TableExtractionError table_not_found = ValueError).
Proof.
  assert (outcome (extract (U := ascii_only) (C := sample_common (U := ascii_only))
                     [cover_page])
          = Raise (TableExtractionError table_not_found)) as Hout by (by vm_compute).
  split; [exact Hout|].
  exact (extract_raises (U := ascii_only) (C := sample_common (U := ascii_only))
           [cover_page] (TableExtractionError table_not_found) Hout).
Defined.
